(** * Detectoria: the text-analysis decision pipeline of [app.py]

    A shallow embedding of the functions of [app.py] that decide what the
    [/analizar] endpoint answers:

    - [allowed_file], [diagnosticar_error_gemini], [limpiar_respuesta_gemini],
      [transformar_respuesta_gemini], [analizar_con_gemini],
      [analisis_fallback] and the route handler [analizar].

    Conventions of the embedding.

    - A Python [str] is a [string]; one [ascii] stands for one character
      (code points 0..255).  Message literals are kept byte for byte as they
      are written in the source file and are only ever compared or
      concatenated.
    - A Python [int] is a [Z].  A Python [float] is the rational it denotes
      ([PFloat]; for a float made by [round], the decimal it prints as), or
      [PNaN], or an infinity.
    - A [dict] built by the program or by [json.loads] is an association
      list in insertion order ([JObj]).
    - Code that can raise returns a [result]; [try]/[except Exception] is a
      [match] on it.
    - What the process cannot decide by itself is a parameter: the
      third-party JSON parser ([json_loads]), the configured API key
      ([api_key]), the per-process ordering of [set] elements ([str_key])
      and the direction in which binary floating point resolves an exact
      decimal tie ([tie_up]). *)

From Stdlib Require Import ZArith QArith Qabs List String Ascii Bool Lia Permutation.
Import ListNotations.

Set Warnings "-register-all".

Local Open Scope string_scope.
Local Open Scope list_scope.
Local Open Scope Z_scope.

(** ** Python strings *)

Module PyStr.

(** [len(s)] *)
Definition len (s : string) : Z := Z.of_nat (String.length s).

(** [str.isspace] on one character, for the code points 0..255:
    TAB, LF, VT, FF, CR, FS, GS, RS, US, SPACE, NEL and NBSP. *)
Definition is_space (c : ascii) : bool :=
  let n := Z.of_nat (nat_of_ascii c) in
  ((9 <=? n) && (n <=? 13)) || ((28 <=? n) && (n <=? 32))
  || (n =? 133) || (n =? 160).

(** Case mapping of one character, for the code points 0..255: the letters
    A-Z and the accented capitals 192..222 (but the multiplication sign 215)
    are 32 below their small letter.  The three small letters whose capital
    lies outside this range (181, 223, 255) are left as they are by
    [upper_char]; the program capitalizes only its own ASCII labels. *)
Definition lower_char (c : ascii) : ascii :=
  let n := nat_of_ascii c in
  if ((Nat.leb 65 n && Nat.leb n 90)
      || (Nat.leb 192 n && Nat.leb n 222 && negb (Nat.eqb n 215)))%bool
  then ascii_of_nat (n + 32) else c.

Definition upper_char (c : ascii) : ascii :=
  let n := nat_of_ascii c in
  if ((Nat.leb 97 n && Nat.leb n 122)
      || (Nat.leb 224 n && Nat.leb n 254 && negb (Nat.eqb n 247)))%bool
  then ascii_of_nat (n - 32) else c.

(** [s.lower()] *)
Fixpoint lower (s : string) : string :=
  match s with
  | EmptyString => EmptyString
  | String c s' => String (lower_char c) (lower s')
  end.

(** [s.capitalize()]: first character upper-cased, the rest lower-cased. *)
Definition capitalize (s : string) : string :=
  match s with
  | EmptyString => EmptyString
  | String c s' => String (upper_char c) (lower s')
  end.

(** [s.startswith(p)] *)
Fixpoint startswith (p s : string) : bool :=
  match p, s with
  | EmptyString, _ => true
  | String _ _, EmptyString => false
  | String a p', String b s' => Ascii.eqb a b && startswith p' s'
  end.

(** [s.endswith(suf)] *)
Fixpoint endswith (suf s : string) : bool :=
  String.eqb s suf ||
  match s with
  | EmptyString => false
  | String _ s' => endswith suf s'
  end.

(** [sub in s] *)
Fixpoint contains (sub s : string) : bool :=
  startswith sub s ||
  match s with
  | EmptyString => false
  | String _ s' => contains sub s'
  end.

(** [s.count(c)] for a one-character needle. *)
Fixpoint count_char (c : ascii) (s : string) : Z :=
  match s with
  | EmptyString => 0
  | String a s' => (if Ascii.eqb a c then 1 else 0) + count_char c s'
  end.

(** [s.replace(old, new)] for a non-empty [old]: occurrences are found
    left to right and do not overlap.  [skip] counts the characters of a
    matched occurrence that are still to be dropped. *)
Fixpoint replace_from (old new : string) (skip : nat) (s : string) : string :=
  match s with
  | EmptyString => EmptyString
  | String c s' =>
      match skip with
      | S k => replace_from old new k s'
      | O =>
          if startswith old s
          then (new ++ replace_from old new (String.length old - 1) s')%string
          else String c (replace_from old new 0 s')
      end
  end.

Definition replace (old new s : string) : string := replace_from old new 0 s.

(** [s.lstrip()], [s.rstrip()], [s.strip()] *)
Fixpoint lstrip (s : string) : string :=
  match s with
  | EmptyString => EmptyString
  | String c s' => if is_space c then lstrip s' else s
  end.

Fixpoint rstrip (s : string) : string :=
  match s with
  | EmptyString => EmptyString
  | String c s' =>
      match rstrip s' with
      | EmptyString => if is_space c then EmptyString else String c EmptyString
      | r => String c r
      end
  end.

Definition strip (s : string) : string := rstrip (lstrip s).

(** [s.split()]: the maximal runs of non-whitespace characters, in order.
    [cur] is the run being read, [None] between runs. *)
Fixpoint split_from (cur : option string) (s : string) : list string :=
  match s with
  | EmptyString => match cur with Some w => [w] | None => [] end
  | String c s' =>
      if is_space c
      then match cur with
           | Some w => w :: split_from None s'
           | None => split_from None s'
           end
      else match cur with
           | Some w => split_from (Some (w ++ String c EmptyString)%string) s'
           | None => split_from (Some (String c EmptyString)) s'
           end
  end.

Definition split (s : string) : list string := split_from None s.

End PyStr.

(** ** Python values and exceptions *)

(** A computation that may raise: [Raise msg] carries [str(e)]. *)
Inductive result (A : Type) : Type :=
| Ok (a : A)
| Raise (msg : string).
Arguments Ok {A} a.
Arguments Raise {A} msg.

Definition bind {A B : Type} (c : result A) (k : A -> result B) : result B :=
  match c with
  | Ok a => k a
  | Raise msg => Raise msg
  end.

Notation "x <- c ;; k" := (bind c (fun x => k))
  (at level 61, c at next level, right associativity).

(** [try: body except Exception as e: handler(str(e))] *)
Definition try_except {A : Type} (body : result A) (handler : string -> result A) : result A :=
  match body with
  | Ok a => Ok a
  | Raise msg => handler msg
  end.

(** Numbers as [json.loads] produces them and as the program computes them. *)
Inductive pynum : Type :=
| PInt (z : Z)
| PFloat (q : Q)
| PNaN
| PInf (negative : bool).

(** The values of the [json] module: [None], [bool], numbers, [str], [list]
    and [dict] with [str] keys. *)
Inductive json : Type :=
| JNull
| JBool (b : bool)
| JNum (n : pynum)
| JStr (s : string)
| JArr (items : list json)
| JObj (fields : list (string * json)).

Definition JInt (z : Z) : json := JNum (PInt z).

Module Py.

(** [type(v).__name__] *)
Definition type_name (v : json) : string :=
  match v with
  | JNull => "NoneType"
  | JBool _ => "bool"
  | JNum (PInt _) => "int"
  | JNum _ => "float"
  | JStr _ => "str"
  | JArr _ => "list"
  | JObj _ => "dict"
  end.

(** Lookup in a [dict]. *)
Fixpoint lookup (key : string) (fields : list (string * json)) : option json :=
  match fields with
  | [] => None
  | (k, v) :: rest => if String.eqb key k then Some v else lookup key rest
  end.

(** [d.get(key, default)] on a [dict]. *)
Definition dict_get (fields : list (string * json)) (key : string) (default : json) : json :=
  match lookup key fields with
  | Some v => v
  | None => default
  end.

(** [data.get(key, default)] on whatever [json.loads] returned: only a
    [dict] has the method, anything else raises [AttributeError]. *)
Definition get (data : json) (key : string) (default : json) : result json :=
  match data with
  | JObj fields => Ok (dict_get fields key default)
  | other => Raise ("'" ++ type_name other ++ "' object has no attribute 'get'")
  end.

(** [n < k] for a number [n] and an [int] literal [k]. *)
Definition num_lt (n : pynum) (k : Z) : bool :=
  match n with
  | PInt z => z <? k
  | PFloat q => Qnum q <? k * Z.pos (Qden q)
  | PNaN => false
  | PInf negative => negative
  end.

(** [v < k] for an [int] literal [k]: numbers and [bool] compare, every
    other type raises [TypeError]. *)
Definition lt (v : json) (k : Z) : result bool :=
  match v with
  | JNum n => Ok (num_lt n k)
  | JBool b => Ok (Z.b2z b <? k)
  | other =>
      Raise ("'<' not supported between instances of '" ++ type_name other ++ "' and 'int'")
  end.

(** [label.capitalize()] where [label] came out of a [dict]. *)
Definition capitalize (v : json) : result json :=
  match v with
  | JStr s => Ok (JStr (PyStr.capitalize s))
  | other => Raise ("'" ++ type_name other ++ "' object has no attribute 'capitalize'")
  end.

(** The real number a percentage stands for, when it is one. *)
Definition real_value (v : json) : option Q :=
  match v with
  | JNum (PInt z) => Some (inject_Z z)
  | JNum (PFloat q) => Some q
  | JBool b => Some (inject_Z (Z.b2z b))
  | _ => None
  end.

End Py.

(** ** Sets of strings *)

Section PySet.

(** CPython salts [str] hashes per process, so the internal order of a
    [set] of strings differs from run to run.  [str_key] stands for that
    per-process order: a set is kept sorted by it. *)
Variable str_key : string -> Z.

Fixpoint set_place (x : string) (s : list string) : list string :=
  match s with
  | [] => [x]
  | y :: s' => if str_key x <? str_key y then x :: s else y :: set_place x s'
  end.

(** [s.add(x)] *)
Definition set_add (x : string) (s : list string) : list string :=
  if existsb (String.eqb x) s then s else set_place x s.

(** [set(l)] *)
Definition pyset (l : list string) : list string :=
  fold_left (fun s x => set_add x s) l [].

(** [len(set(l))] *)
Definition len_set (l : list string) : Z := Z.of_nat (List.length (pyset l)).

End PySet.

(** ** Text statistics and the heuristic scorer *)

Definition len_list {A : Type} (l : list A) : Z := Z.of_nat (List.length l).

Section Scorer.

Variable str_key : string -> Z.

(** [round(u / t * 100, 1)] for token counts [0 <= u <= t], [0 < t].

    The quotient and the product are binary64 operations, each correctly
    rounded, so the float x that [round] receives is within 100 * 2^-51 of
    100 u / t.  [round(x, 1)] is the float nearest to the tenth nearest to
    x.  A decimal tie (an odd multiple of 1/20) that 100 u / t does not hit
    is at least 1/(20 t) away from it, more than the error for every t below
    10^12, so x lies on the same side of it and the tenth is the one nearest
    to the exact quotient.  When 1000 u / t is exactly half-way between two
    integers the float decides, and [tie_up u t] says which way.  The result
    is written as the decimal k/10 the float prints as. *)
Variable tie_up : Z -> Z -> bool.

Definition round1_pct (u t : Z) : Q :=
  let n := 1000 * u in
  let k := n / t in
  let r := n mod t in
  let k' := if 2 * r <? t then k
            else if t <? 2 * r then k + 1
            else if tie_up u t then k + 1 else k in
  k' # 10.

(** [round((len(set(texto.split())) / len(texto.split()) * 100), 1)
     if texto.split() else 0] *)
Definition densidad_vocabulario (texto : string) : json :=
  match PyStr.split texto with
  | [] => JInt 0
  | _ :: _ =>
      JNum (PFloat (round1_pct (len_set str_key (PyStr.split texto))
                               (len_list (PyStr.split texto))))
  end.

(** [ratio < 0.6] with [ratio = palabras_unicas / len(palabras)]: the
    quotient is the binary64 float nearest to u/t and [0.6] is the float
    nearest to 3/5.  Two fractions with denominators t and 5 that differ
    are at least 1/(5 t) apart, more than the spacing 2^-53 of floats near
    0.6 for every t below 10^15, so the float comparison is the exact
    one, [5 u < 3 t]. *)
Definition ratio_lt_0_6 (u t : Z) : bool := 5 * u <? 3 * t.

Definition preguntas_fallback : list string :=
  [ "¿Puedes explicar el tema principal con tus propias palabras?";
    "Dame un ejemplo relacionado con tu entorno.";
    "¿Qué parte te costó más entender de este trabajo?" ].

(** [analisis_fallback(texto, nivel_educativo)].  The two locals
    [indicadores] and [porcentaje] are threaded through the four tests in
    source order. *)
Definition analisis_fallback (texto nivel_educativo : string) : json :=
  let indicadores : list string := [] in
  let porcentaje := 50 in
  let '(indicadores, porcentaje) :=
    if PyStr.len texto <? 100
    then (indicadores ++ ["Texto muy corto"], porcentaje + 20)
    else (indicadores, porcentaje) in
  let '(indicadores, porcentaje) :=
    if PyStr.count_char "."%char texto <? 3
    then (indicadores ++ ["Pocos puntos (posible copia)"], porcentaje + 15)
    else (indicadores, porcentaje) in
  let '(indicadores, porcentaje) :=
    if len_set str_key (PyStr.split texto) <? 15
    then (indicadores ++ ["Vocabulario limitado"], porcentaje + 15)
    else (indicadores, porcentaje) in
  let palabras := PyStr.split texto in
  let '(indicadores, porcentaje) :=
    if 10 <? len_list palabras
    then
      let palabras_unicas := len_set str_key palabras in
      if ratio_lt_0_6 palabras_unicas (len_list palabras)
      then (indicadores ++ ["Mucha repetición de palabras"], porcentaje + 20)
      else (indicadores, porcentaje)
    else (indicadores, porcentaje) in
  let indicadores :=
    if existsb (String.eqb nivel_educativo) ["basica-1-4"; "basica-5-8"]
    then indicadores ++ [("Análisis básico para nivel " ++ nivel_educativo)%string]
    else if existsb (String.eqb nivel_educativo) ["medio-1-2"; "medio-3-4"]
    then indicadores ++ ["Análisis para educación media"]
    else indicadores ++ ["Análisis automático básico"] in
  let nivel :=
    if porcentaje <? 50 then "bajo" else if porcentaje <? 75 then "medio" else "alto" in
  let color :=
    if String.eqb nivel "bajo" then "green"
    else if String.eqb nivel "medio" then "yellow" else "red" in
  JObj
    [ ("porcentaje", JInt (Z.min porcentaje 100));
      ("color", JStr color);
      ("label", JStr (PyStr.capitalize nivel));
      ("indicadores",
        JArr (map JStr (match indicadores with
                        | [] => ["Análisis automático básico"]
                        | _ :: _ => indicadores
                        end)));
      ("preguntas", JArr (map JStr preguntas_fallback));
      ("filename", JStr EmptyString);
      ("analizado_con_ia", JBool false);
      ("nivel_educativo", JStr nivel_educativo);
      ("error_info", JStr "Análisis automático (fallback)");
      ("longitud_texto", JInt (PyStr.len texto));
      ("palabras_unicas", JInt (len_set str_key (PyStr.split texto)));
      ("densidad_vocabulario", densidad_vocabulario texto) ].

End Scorer.

(** ** Diagnosis and cleaning of the model's answer *)

(** [diagnosticar_error_gemini(error)], on [str(error)]. *)
Definition diagnosticar_error_gemini (error : string) : string :=
  let error_str := PyStr.lower error in
  let has sub := PyStr.contains sub error_str in
  if has "quota" || has "limit"
  then "Cuota de API alcanzada - Has excedido el límite de requests"
  else if has "invalid" && has "key"
  then "API Key inválida - Verifica tu clave de Google AI"
  else if has "unauthorized" || has "401"
  then "No autorizado - API Key incorrecta o expirada"
  else if has "rate" && has "limit"
  then "Límite de velocidad alcanzado - Demasiadas requests por minuto"
  else if has "network" || has "connection"
  then "Error de conexión - Problema de red o internet"
  else if has "timeout"
  then "Timeout - La request tardó demasiado en responder"
  else if has "json"
  then "Error de formato JSON - Respuesta malformada de Gemini"
  else if has "model"
  then "Modelo no disponible - Error con el modelo de IA"
  else ("Error desconocido: " ++ error)%string.

(** The characters LF and TAB, and the two-character sequences backslash-n
    and backslash-t (a string literal here has no escapes). *)
Definition LF : string := String "010"%char EmptyString.
Definition TAB : string := String "009"%char EmptyString.
Definition backslash_n : string := "\n".
Definition backslash_t : string := "\t".

Definition fence_json : string := "```json".
Definition fence : string := "```".

(** [limpiar_respuesta_gemini(response_text)] *)
Definition limpiar_respuesta_gemini (response_text : string) : string :=
  if String.eqb response_text EmptyString then EmptyString
  else
    let response_text :=
      if PyStr.startswith fence_json response_text
      then PyStr.replace fence EmptyString
             (PyStr.replace fence_json EmptyString response_text)
      else response_text in
    let response_text := PyStr.strip response_text in
    PyStr.replace backslash_t TAB (PyStr.replace backslash_n LF response_text).

(** ** Normalizer and orchestrator *)

(** What [model.generate_content(prompt)] and the reading of
    [response.text] can come to.  [ReplyRaise] is any exception of the
    client library, with its message. *)
Inductive gemini_reply : Type :=
| ReplyRaise (msg : string)
| ReplyNone
| ReplyNoText
| ReplyText (text : option string).

(** The triple [(resultado, analizado_con_ia, error_info)].  [resultado] is
    [json.dumps(d)] in the source and is read back with [json.loads] by the
    route handler, which gives [d] again; the model carries [d]. *)
Definition analysis : Type := json * bool * string.

Section Pipeline.

Variable str_key : string -> Z.
Variable tie_up : Z -> Z -> bool.

(** [json.loads]: the parsed value, or the message of the exception. *)
Variable json_loads : string -> result json.

(** The module-level [api_key]. *)
Variable api_key : string.

(** The [if porcentaje < 50 ... elif porcentaje < 75 ... else] of
    [transformar_respuesta_gemini]: the pair [(color, label)], or the
    [TypeError] of the first comparison. *)
Definition color_y_label (porcentaje : json) : result (string * string) :=
  lt50 <- Py.lt porcentaje 50 ;;
  if lt50 : bool then Ok ("green", "Bajo")
  else
    lt75 <- Py.lt porcentaje 75 ;;
    if lt75 : bool then Ok ("yellow", "Medio") else Ok ("red", "Alto").

(** The body of the [try] of [transformar_respuesta_gemini]. *)
Definition expandir (respuesta_gemini texto nivel_educativo : string) : result analysis :=
  data <- json_loads respuesta_gemini ;;
  porcentaje <- Py.get data "porcentaje" (JInt 50) ;;
  indicadores <- Py.get data "indicadores" (JArr []) ;;
  preguntas <- Py.get data "preguntas" (JArr []) ;;
  tier <- color_y_label porcentaje ;;
  let '(color, label) := tier in
  let resultado_completo :=
    JObj
      [ ("porcentaje", porcentaje);
        ("color", JStr color);
        ("label", JStr label);
        ("indicadores", indicadores);
        ("preguntas", preguntas);
        ("filename", JStr EmptyString);
        ("analizado_con_ia", JBool true);
        ("nivel_educativo", JStr nivel_educativo);
        ("error_info", JStr "Análisis exitoso con IA");
        ("longitud_texto", JInt (PyStr.len texto));
        ("palabras_unicas", JInt (len_set str_key (PyStr.split texto)));
        ("densidad_vocabulario", densidad_vocabulario str_key tie_up texto) ] in
  Ok (resultado_completo, true, "Análisis exitoso con IA").

(** [transformar_respuesta_gemini(respuesta_gemini, texto, nivel_educativo)] *)
Definition transformar_respuesta_gemini
    (respuesta_gemini texto nivel_educativo : string) : result analysis :=
  try_except (expandir respuesta_gemini texto nivel_educativo)
    (fun e => Ok (analisis_fallback str_key tie_up texto nivel_educativo, false,
                  ("Error transformando respuesta: " ++ e)%string)).

(** [analizar_con_gemini(texto, nivel_educativo)], given what the call to
    the model comes to if it is made ([reply]: the construction of the
    client, [generate_content] and the reading of [response.text]).  The
    prompt only matters to the remote model and is not built here. *)
Definition analizar_con_gemini
    (texto nivel_educativo : string) (reply : gemini_reply) : result analysis :=
  if String.eqb (PyStr.strip texto) EmptyString
  then Ok (analisis_fallback str_key tie_up texto nivel_educativo, false, "Texto vacío")
  else
    try_except
      (if String.eqb api_key EmptyString || String.eqb api_key "tu_api_key_aqui"
       then Ok (analisis_fallback str_key tie_up texto nivel_educativo, false,
                "API Key no configurada")
       else
         match reply with
         | ReplyRaise msg => Raise msg
         | ReplyNone =>
             Ok (analisis_fallback str_key tie_up texto nivel_educativo, false,
                 "Gemini devolvió respuesta vacía")
         | ReplyNoText =>
             Ok (analisis_fallback str_key tie_up texto nivel_educativo, false,
                 "Respuesta de Gemini no tiene texto")
         | ReplyText None =>
             Ok (analisis_fallback str_key tie_up texto nivel_educativo, false,
                 "Gemini devolvió respuesta vacía")
         | ReplyText (Some response_text) =>
             if String.eqb response_text EmptyString
                || String.eqb (PyStr.strip response_text) EmptyString
             then Ok (analisis_fallback str_key tie_up texto nivel_educativo, false,
                      "Gemini devolvió respuesta vacía")
             else
               let response_text_limpia := limpiar_respuesta_gemini response_text in
               transformar_respuesta_gemini response_text_limpia texto nivel_educativo
         end)
      (fun e => Ok (analisis_fallback str_key tie_up texto nivel_educativo, false,
                    diagnosticar_error_gemini e)).

End Pipeline.

(** ** The route handler *)

Definition MAX_FILE_SIZE : Z := 10 * 1024 * 1024.

Definition ALLOWED_EXTENSIONS : list string :=
  [".txt"; ".docx"; ".pdf"; ".jpg"; ".jpeg"; ".png"; ".bmp"; ".tiff"].

(** [allowed_file(filename)] *)
Definition allowed_file (filename : string) : bool :=
  existsb (fun ext => PyStr.endswith ext (PyStr.lower filename)) ALLOWED_EXTENSIONS.

(** The uploaded [FileStorage]: its name and the position [tell()] reports
    at its end. *)
Record upload : Type := { filename : string; file_size : Z }.

(** The [file] part of [request.files] and the [nivel] field of
    [request.form]. *)
Record request : Type := { req_file : option upload; req_nivel : option string }.

(** What the handler meets outside the process once validation has passed:
    whether staging the upload in a temporary file raises, the value of
    [extraer_texto(temp_file.name)] (it catches everything and always
    returns a [str]), and the model's reply. *)
Record world : Type :=
  { staging : result unit; extracted : string; reply : gemini_reply }.

Record response : Type := { status : Z; body : json }.

(** The steps of the analysis pipeline, as the handler starts them. *)
Inductive event : Type := Staged | Extracted | Analyzed.

Definition error_response (code : Z) (message : string) : response :=
  {| status := code; body := JObj [("error", JStr message)] |}.

Section Handler.

Variable str_key : string -> Z.
Variable tie_up : Z -> Z -> bool.
Variable json_loads : string -> result json.
Variable api_key : string.

(** The dict returned when no text could be extracted. *)
Definition no_detectado (file : upload) : json :=
  JObj
    [ ("porcentaje", JInt 0);
      ("color", JStr "gray");
      ("label", JStr "No detectado");
      ("indicadores", JArr [JStr "No se pudo extraer texto del documento"]);
      ("preguntas", JArr []);
      ("filename", JStr (filename file));
      ("analizado_con_ia", JBool false);
      ("error_info", JStr "No se pudo extraer texto del documento") ].

(** The handler from the call to the orchestrator to [jsonify].
    [json.loads(resultado)] gives back the dict the orchestrator serialized
    ([json.dumps] and [json.loads] are inverse on the values built here), so
    [data] is that dict and the [except json.JSONDecodeError] arm is not
    taken. *)
Definition responder (file : upload) (nivel texto : string) (r : gemini_reply)
    : result response :=
  a <- analizar_con_gemini str_key tie_up json_loads api_key texto nivel r ;;
  let '(resultado, analizado_con_ia, error_info) := a in
  let data := resultado in
  porcentaje <- Py.get data "porcentaje" (JInt 50) ;;
  label <- Py.get data "label" (JStr "medio") ;;
  color <- Py.get data "color" (JStr "gray") ;;
  label_cap <- Py.capitalize label ;;
  indicadores <- Py.get data "indicadores" (JArr []) ;;
  preguntas <- Py.get data "preguntas" (JArr []) ;;
  longitud_texto <- Py.get data "longitud_texto" (JInt 0) ;;
  palabras_unicas <- Py.get data "palabras_unicas" (JInt 0) ;;
  densidad <- Py.get data "densidad_vocabulario" (JInt 0) ;;
  let resultado_final :=
    JObj
      [ ("porcentaje", porcentaje);
        ("color", color);
        ("label", label_cap);
        ("indicadores", indicadores);
        ("preguntas", preguntas);
        ("filename", JStr (filename file));
        ("analizado_con_ia", JBool analizado_con_ia);
        ("nivel_educativo", JStr nivel);
        ("error_info", JStr error_info);
        ("longitud_texto", longitud_texto);
        ("palabras_unicas", palabras_unicas);
        ("densidad_vocabulario", densidad) ] in
  Ok {| status := 200; body := resultado_final |}.

(** The inner [try] of the handler, with the pipeline steps it starts. *)
Definition procesar (file : upload) (nivel : string) (w : world)
    : result response * list event :=
  match staging w with
  | Raise e => (Raise e, [Staged])
  | Ok _ =>
      let texto := extracted w in
      if String.eqb texto EmptyString
      then (Ok {| status := 200; body := no_detectado file |}, [Staged; Extracted])
      else (responder file nivel texto (reply w), [Staged; Extracted; Analyzed])
  end.

(** [analizar()]: the answer to a POST on [/analizar] and the pipeline
    steps that were started for it.  A [FileStorage] without a name is
    falsy, so [not file] and the test of the empty name are one test.  The
    accessors of the request and [seek]/[tell] are taken not to raise. *)
Definition analizar (req : request) (w : world) : response * list event :=
  match req_file req with
  | None => (error_response 400 "No se seleccionó ningún archivo", [])
  | Some file =>
      if String.eqb (filename file) EmptyString
      then (error_response 400 "No se seleccionó ningún archivo", [])
      else
        match req_nivel req with
        | None => (error_response 400 "Por favor selecciona un nivel educativo", [])
        | Some nivel =>
            if String.eqb nivel EmptyString
            then (error_response 400 "Por favor selecciona un nivel educativo", [])
            else if negb (allowed_file (filename file))
            then (error_response 400
                    "Tipo de archivo no permitido. Use .txt, .docx, .pdf, .jpg, .png", [])
            else if MAX_FILE_SIZE <? file_size file
            then (error_response 400 "Archivo demasiado grande. Máximo 10MB", [])
            else
              let '(outcome, steps) := procesar file nivel w in
              match outcome with
              | Ok resp => (resp, steps)
              | Raise e =>
                  (error_response 500 ("Error procesando archivo: " ++ e)%string, steps)
              end
        end
  end.

End Handler.

(** * Vocabulary of the specification *)

(** ** Reports and tokens *)

(** The value of a key of a report, if the report is a dict that has it. *)
Definition field (key : string) (report : json) : option json :=
  match report with
  | JObj fields => Py.lookup key fields
  | _ => None
  end.

(** The whitespace-delimited tokens of a text, and how many are distinct. *)
Definition total_tokens (texto : string) : Z := len_list (PyStr.split texto).

Definition distinct_tokens (texto : string) : Z :=
  len_list (nodup string_dec (PyStr.split texto)).

(** ** The heuristic scorer, as the specification words it *)

(** [a < b] on rationals. *)
Definition Qltb (a b : Q) : bool := (Qnum a * QDen b <? Qnum b * QDen a)%Z.

(** distinct / total *)
Definition token_ratio (texto : string) : Q :=
  (inject_Z (distinct_tokens texto) / inject_Z (total_tokens texto))%Q.

Definition short_text (texto : string) : bool := PyStr.len texto <? 100.
Definition few_periods (texto : string) : bool := PyStr.count_char "."%char texto <? 3.
Definition limited_vocabulary (texto : string) : bool := distinct_tokens texto <? 15.
Definition high_repetition (texto : string) : bool :=
  (10 <? total_tokens texto) && Qltb (token_ratio texto) (6 # 10).

Definition penalty (triggered : bool) (points : Z) : Z := if triggered then points else 0.

Definition mention (triggered : bool) (indicator : string) : list string :=
  if triggered then [indicator] else [].

Definition heuristic_percentage (texto : string) : Z :=
  Z.min 100
    (50 + penalty (short_text texto) 20 + penalty (few_periods texto) 15
        + penalty (limited_vocabulary texto) 15 + penalty (high_repetition texto) 20).

Definition level_indicator (nivel_educativo : string) : string :=
  if String.eqb nivel_educativo "basica-1-4" || String.eqb nivel_educativo "basica-5-8"
  then ("Análisis básico para nivel " ++ nivel_educativo)%string
  else if String.eqb nivel_educativo "medio-1-2" || String.eqb nivel_educativo "medio-3-4"
  then "Análisis para educación media"
  else "Análisis automático básico".

Definition heuristic_indicators (texto nivel_educativo : string) : list string :=
  mention (short_text texto) "Texto muy corto"
  ++ mention (few_periods texto) "Pocos puntos (posible copia)"
  ++ mention (limited_vocabulary texto) "Vocabulario limitado"
  ++ mention (high_repetition texto) "Mucha repetición de palabras"
  ++ [level_indicator nivel_educativo].

(** The score before the clamp. *)
Definition raw_score (texto : string) : Z :=
  50 + penalty (short_text texto) 20 + penalty (few_periods texto) 15
     + penalty (limited_vocabulary texto) 15 + penalty (high_repetition texto) 20.

(** The vocabulary density in terms of the token counts. *)
Definition density_of (tie_up : Z -> Z -> bool) (texto : string) : json :=
  if total_tokens texto =? 0 then JInt 0
  else JNum (PFloat (round1_pct tie_up (distinct_tokens texto) (total_tokens texto))).

(** ** Vocabulary density *)

(** [d] is [x] rounded to one decimal: a tenth at distance at most 1/20. *)
Definition rounds_to_tenth (x d : Q) : Prop :=
  exists k : Z, d = (k # 10)%Q /\ (Qabs (x * 10 - inject_Z k) <= 1 # 2)%Q.

(** What the specification asks of the density [v] of a text. *)
Definition density_spec (texto : string) (v : json) : Prop :=
  exists d : Q,
    Py.real_value v = Some d
    /\ (0 <= d <= 100 # 1)%Q
    /\ (total_tokens texto = 0 -> v = JInt 0)
    /\ (0 < total_tokens texto -> rounds_to_tenth (token_ratio texto * (100 # 1)) d).

(** ** Tiers *)

(** The tier table of the data model, for a percentage [p]. *)
Definition in_tier (p : Q) (color label : string) : Prop :=
  ((0 <= p < 50 # 1)%Q -> color = "green" /\ label = "Bajo")
  /\ ((50 # 1 <= p < 75 # 1)%Q -> color = "yellow" /\ label = "Medio")
  /\ ((75 # 1 <= p <= 100 # 1)%Q -> color = "red" /\ label = "Alto").

(** The three tiers. *)
Definition tiers : list (string * string) :=
  [("green", "Bajo"); ("yellow", "Medio"); ("red", "Alto")].

(** The tier of a real percentage by the two thresholds 50 and 75, over all
    the reals (also below 0 and above 100). *)
Definition tier_of (q : Q) : string * string :=
  if Qltb q (50 # 1) then ("green", "Bajo")
  else if Qltb q (75 # 1) then ("yellow", "Medio")
  else ("red", "Alto").

(** The tier that belongs to a percentage: the one of its real value when
    it has one (an int, a finite float, a bool as 0 or 1); a float that is
    not a number or is plus infinity is below neither threshold, minus
    infinity is below both; anything else (null, a string, a list, an
    object) has no tier. *)
Definition expected_tier (p : json) : option (string * string) :=
  match Py.real_value p with
  | Some q => Some (tier_of q)
  | None =>
      match p with
      | JNum PNaN => Some ("red", "Alto")
      | JNum (PInf negative) => Some (if negative then ("green", "Bajo") else ("red", "Alto"))
      | _ => None
      end
  end.

(** A report whose color and label are derived from its percentage: the
    percentage is there and is not null, color and label are one of the
    three tiers, they are the tier that belongs to the percentage, and for
    a real percentage that is the tier of the two thresholds, which on 0..100
    is the tier of the table. *)
Definition tiered (report : json) : Prop :=
  exists (p : json) (color label : string),
    field "porcentaje" report = Some p
    /\ field "color" report = Some (JStr color)
    /\ field "label" report = Some (JStr label)
    /\ p <> JNull
    /\ In (color, label) tiers
    /\ expected_tier p = Some (color, label)
    /\ forall q, Py.real_value p = Some q ->
                 (color, label) = tier_of q /\ in_tier q color label.

(** ** Failures of the normalizer and of the call *)

(** Why the expansion of a cleaned answer fails, if it does: the parser
    raises, or the parsed value is not an object ([.get] is missing), or its
    percentage cannot be compared with a number.  The string is the
    exception's message. *)
Definition transform_failure (json_loads : string -> result json) (respuesta : string)
    : option string :=
  match json_loads respuesta with
  | Raise e => Some e
  | Ok (JObj fields) =>
      match Py.dict_get fields "porcentaje" (JInt 50) with
      | JNum _ | JBool _ => None
      | other =>
          Some ("'<' not supported between instances of '"
                ++ Py.type_name other ++ "' and 'int'")%string
      end
  | Ok other => Some ("'" ++ Py.type_name other ++ "' object has no attribute 'get'")%string
  end.

(** Why the call to the model fails, if it does, in the words the
    orchestrator reports: a raised exception (classified), a null
    response, a response without text, an empty or all-whitespace text. *)
Definition call_failure (reply : gemini_reply) : option string :=
  match reply with
  | ReplyRaise e => Some (diagnosticar_error_gemini e)
  | ReplyNone => Some "Gemini devolvió respuesta vacía"
  | ReplyNoText => Some "Respuesta de Gemini no tiene texto"
  | ReplyText None => Some "Gemini devolvió respuesta vacía"
  | ReplyText (Some s) =>
      if String.eqb (PyStr.strip s) EmptyString
      then Some "Gemini devolvió respuesta vacía"
      else None
  end.

Definition key_configured (api_key : string) : bool :=
  negb (String.eqb api_key EmptyString || String.eqb api_key "tu_api_key_aqui").

(** ** Validation at the boundary *)

(** The four ways a request is turned away, and the message of each. *)
Inductive rejection : Type := NoFile | NoLevel | BadExtension | TooLarge.

Definition rejection_message (r : rejection) : string :=
  match r with
  | NoFile => "No se seleccionó ningún archivo"
  | NoLevel => "Por favor selecciona un nivel educativo"
  | BadExtension => "Tipo de archivo no permitido. Use .txt, .docx, .pdf, .jpg, .png"
  | TooLarge => "Archivo demasiado grande. Máximo 10MB"
  end.

(** [violates req r]: the request breaks constraint [r]. *)
Definition violates (req : request) (r : rejection) : Prop :=
  match r with
  | NoFile =>
      req_file req = None \/ exists file, req_file req = Some file /\ filename file = EmptyString
  | NoLevel => req_nivel req = None \/ req_nivel req = Some EmptyString
  | BadExtension =>
      exists file,
        req_file req = Some file
        /\ forall ext, In ext ALLOWED_EXTENSIONS ->
                       PyStr.endswith ext (PyStr.lower (filename file)) = false
  | TooLarge => exists file, req_file req = Some file /\ 10 * 1024 * 1024 < file_size file
  end.

(** ** The outward response *)

(** The fields of a Report, under the names the JSON object uses. *)
Definition report_keys : list string :=
  [ "porcentaje"; "color"; "label"; "indicadores"; "preguntas"; "filename";
    "analizado_con_ia"; "nivel_educativo"; "error_info"; "longitud_texto";
    "palabras_unicas"; "densidad_vocabulario" ].

(** Every field is there and none is null. *)
Definition fully_populated (report : json) : Prop :=
  forall key, In key report_keys -> exists v, field key report = Some v /\ v <> JNull.

(** ** Cleaning of the model's answer *)

(** The two-character sequences backslash-n and backslash-t made a real
    newline and a real tab. *)
Definition unescape (s : string) : string :=
  PyStr.replace backslash_t TAB (PyStr.replace backslash_n LF s).

(** [s] without the prefix [p], and without the suffix [suf], when it has
    them. *)
Definition drop_prefix (p s : string) : string :=
  if PyStr.startswith p s
  then String.substring (String.length p) (String.length s - String.length p) s
  else s.

Definition drop_suffix (suf s : string) : string :=
  if PyStr.endswith suf s
  then String.substring 0 (String.length s - String.length suf) s
  else s.

(** The cleaning step in the words of the specification: a string that
    starts with the JSON fence loses that leading marker and a trailing
    fence, is trimmed and unescaped; any other string is only trimmed and
    unescaped. *)
Definition limpiar_spec (s : string) : string :=
  if PyStr.startswith fence_json s
  then unescape (PyStr.strip (drop_suffix fence (PyStr.rstrip (drop_prefix fence_json s))))
  else unescape (PyStr.strip s).

Definition backtick : ascii := "`"%char.

(** ** Concrete inputs *)

(** The double quote character. *)
Definition dq : string := String "034"%char EmptyString.

(** A [json.loads] known on finitely many texts; it raises on the rest. *)
Definition loads_table (table : list (string * json)) (s : string) : result json :=
  match Py.lookup s table with
  | Some v => Ok v
  | None => Raise "Expecting value: line 1 column 1 (char 0)"
  end.

(** One process: its set order and its rounding of ties. *)
Definition key0 (s : string) : Z := 0.
Definition tie0 (u t : Z) : bool := false.

(** The text of the end-to-end scenarios. *)
Definition texto_prueba : string := "Hola. Esto es una prueba. Adiós.".

(** A request that passes validation. *)
Definition trabajo_txt : upload := {| filename := "trabajo.txt"; file_size := 33 |}.
Definition peticion_valida : request :=
  {| req_file := Some trabajo_txt; req_nivel := Some "basica-1-4" |}.

(** The answer whose only key is indicadores, with value null, and its
    parsed value. *)
Definition respuesta_null : string := ("{" ++ dq ++ "indicadores" ++ dq ++ ": null}")%string.
Definition loads_null : string -> result json :=
  loads_table [(respuesta_null, JObj [("indicadores", JNull)])].

(** The answer of the specification's scenario (porcentaje 82, indicadores
    [x], preguntas [y]), the same in a JSON code block, and its parsed
    value. *)
Definition respuesta_82 : string :=
  ("{" ++ dq ++ "porcentaje" ++ dq ++ ": 82, "
   ++ dq ++ "indicadores" ++ dq ++ ": [" ++ dq ++ "x" ++ dq ++ "], "
   ++ dq ++ "preguntas" ++ dq ++ ": [" ++ dq ++ "y" ++ dq ++ "]}")%string.
Definition respuesta_82_fenced : string :=
  ("```json" ++ LF ++ respuesta_82 ++ LF ++ "```")%string.
Definition loads_82 : string -> result json :=
  loads_table
    [(respuesta_82,
      JObj [("porcentaje", JInt 82); ("indicadores", JArr [JStr "x"]);
            ("preguntas", JArr [JStr "y"])])].

(** An extraction that found nothing, and two that found the text, with
    different replies of the model. *)
Definition mundo_sin_texto : world :=
  {| staging := Ok tt; extracted := EmptyString; reply := ReplyNone |}.
Definition mundo_null : world :=
  {| staging := Ok tt; extracted := texto_prueba; reply := ReplyText (Some respuesta_null) |}.
Definition mundo_82 : world :=
  {| staging := Ok tt; extracted := texto_prueba;
     reply := ReplyText (Some respuesta_82_fenced) |}.

(** A fenced answer with a triple backtick inside its body. *)
Definition respuesta_fence_interior : string :=
  ("```json" ++ LF ++ "{a```b}" ++ LF ++ "```")%string.

(** * The rest of the module *)

(** ** Text extraction *)

(** [extraer_texto_imagen(file_path)]: no OCR is done, the answer is a fixed
    sentence. *)
Definition extraer_texto_imagen (file_path : string) : string :=
  "OCR no disponible - Instala opencv-python y pytesseract para procesar imágenes".

(** What the three readers find at a path: [f.read()] of the text file, the
    [text] of the paragraphs of [docx.Document], and, for each page of
    [pdfplumber.open], what [extract_text()] comes to (a text, [None], or an
    exception).  Each reader may raise instead. *)
Record disco : Type :=
  { open_txt : string -> result string;
    docx_paragraphs : string -> result (list string);
    pdf_pages : string -> result (list (result (option string))) }.

(** The tuple of image suffixes of [extraer_texto]. *)
Definition IMAGE_EXTENSIONS : list string := [".jpg"; ".jpeg"; ".png"; ".bmp"; ".tiff"].

(** The loop [texto += page.extract_text() + LF] over the pages; adding
    [None] to a string raises [TypeError]. *)
Fixpoint leer_paginas (pages : list (result (option string))) (texto : string)
    : result string :=
  match pages with
  | [] => Ok texto
  | page :: rest =>
      extracted <- page ;;
      match extracted with
      | Some t => leer_paginas rest (texto ++ (t ++ LF))%string
      | None => Raise "unsupported operand type(s) for +: 'NoneType' and 'str'"
      end
  end.

(** The body of the [try] of [extraer_texto]. *)
Definition leer_archivo (d : disco) (file_path : string) : result string :=
  let extension := PyStr.lower file_path in
  texto <-
    (if PyStr.endswith ".txt" extension then open_txt d file_path
     else if PyStr.endswith ".docx" extension then
       paragraphs <- docx_paragraphs d file_path ;;
       Ok (String.concat LF paragraphs)
     else if PyStr.endswith ".pdf" extension then
       pages <- pdf_pages d file_path ;;
       leer_paginas pages EmptyString
     else if existsb (fun ext => PyStr.endswith ext extension) IMAGE_EXTENSIONS
     then Ok (extraer_texto_imagen file_path)
     else Ok EmptyString) ;;
  Ok (PyStr.strip texto).

(** [extraer_texto(file_path)]: any exception of the body gives the empty
    string. *)
Definition extraer_texto (d : disco) (file_path : string) : string :=
  match leer_archivo d file_path with
  | Ok texto => texto
  | Raise _ => EmptyString
  end.

(** ** The prompt *)

(** The table [niveles] of [analizar_con_gemini] and [niveles.get(nivel,
    default)]. *)
Definition niveles : list (string * string) :=
  [ ("basica-1-4", "Educación Básica 1°-4° (7-10 años)");
    ("basica-5-8", "Educación Básica 5°-8° (11-14 años)");
    ("medio-1-2", "Educación Media 1°-2° (15-16 años)");
    ("medio-3-4", "Educación Media 3°-4° (17-18 años)");
    ("superior", "Educación Superior (18+ años)") ].

Fixpoint table_get (key : string) (table : list (string * string)) (default : string)
    : string :=
  match table with
  | [] => default
  | (k, v) :: rest => if String.eqb key k then v else table_get key rest default
  end.

(** The f-string [prompt] of [analizar_con_gemini], line by line; the text
    enters it as [texto[:1500]]. *)
Definition prompt (texto nivel_educativo : string) : string :=
  let nivel_desc := table_get nivel_educativo niveles "Nivel no especificado" in
  String.concat LF
    [
      (EmptyString)%string;
      ("    Analiza este texto de un estudiante de " ++ nivel_desc ++ " para detectar si fue creado con IA.")%string;
      (EmptyString)%string;
      ("    Devuelve SOLO un JSON simple con esta estructura:")%string;
      ("    {")%string;
      ("        " ++ dq ++ "porcentaje" ++ dq ++ ": [0-100, donde 0=humano, 100=IA],")%string;
      ("        " ++ dq ++ "indicadores" ++ dq ++ ": [" ++ dq ++ "indicador1" ++ dq ++ ", " ++ dq ++ "indicador2" ++ dq ++ ", " ++ dq ++ "indicador3" ++ dq ++ "],")%string;
      ("        " ++ dq ++ "preguntas" ++ dq ++ ": [" ++ dq ++ "pregunta1" ++ dq ++ ", " ++ dq ++ "pregunta2" ++ dq ++ ", " ++ dq ++ "pregunta3" ++ dq ++ "]")%string;
      ("    }")%string;
      (EmptyString)%string;
      ("    Indicadores de IA a buscar:")%string;
      ("    - Vocabulario muy avanzado para la edad")%string;
      ("    - Estructura demasiado perfecta")%string;
      ("    - Falta de errores típicos de la edad")%string;
      ("    - Repetición de patrones")%string;
      ("    - Complejidad sintáctica inusual")%string;
      (EmptyString)%string;
      ("    Indicadores de escritura humana:")%string;
      ("    - Errores gramaticales típicos de la edad")%string;
      ("    - Vocabulario apropiado para el nivel")%string;
      ("    - Expresiones personales")%string;
      ("    - Inconsistencias naturales")%string;
      (EmptyString)%string;
      ("    Preguntas según nivel " ++ nivel_desc ++ ":")%string;
      ("    - " ++ dq ++ "¿Puedes explicar con tus propias palabras?" ++ dq)%string;
      ("    - " ++ dq ++ "Dame un ejemplo relacionado con tu experiencia" ++ dq)%string;
      ("    - " ++ dq ++ "¿Qué opinión personal tienes?" ++ dq)%string;
      (EmptyString)%string;
      ("    Texto: " ++ String.substring 0 1500 texto)%string;
      (EmptyString)%string;
      ("    JSON:")%string;
      ("    ")%string
    ].

(** ** Vocabulary for the properties of the whole module *)

(** A request that passes the four checks of the handler. *)
Definition valid_request (req : request) : Prop :=
  exists file nivel,
    req_file req = Some file /\ filename file <> EmptyString
    /\ req_nivel req = Some nivel /\ nivel <> EmptyString
    /\ allowed_file (filename file) = true
    /\ file_size file <= MAX_FILE_SIZE.

(** The number of backticks a string starts with. *)
Fixpoint leading_backticks (s : string) : nat :=
  match s with
  | EmptyString => O
  | String c s' => if Ascii.eqb c backtick then S (leading_backticks s') else O
  end.

(** Every character of the string is whitespace. *)
Fixpoint all_space (s : string) : bool :=
  match s with
  | EmptyString => true
  | String c s' => PyStr.is_space c && all_space s'
  end.

(** The answer whose only key is porcentaje, with value 150. *)
Definition respuesta_150 : string :=
  ("{" ++ dq ++ "porcentaje" ++ dq ++ ": 150}")%string.

(** A disk on which every reader finds the one-letter text x, and one
    whose readers all raise. *)
Definition disco_x : disco :=
  {| open_txt := fun _ => Ok "x";
     docx_paragraphs := fun _ => Ok ["x"];
     pdf_pages := fun _ => Ok [Ok (Some "x")] |}.

Definition disco_roto : disco :=
  {| open_txt := fun _ => Raise "[Errno 2] No such file or directory";
     docx_paragraphs := fun _ => Raise "Package not found";
     pdf_pages := fun _ => Raise "No /Root object! - Is this really a PDF?" |}.

(** * Properties *)

(** ** The string functions on the values Python gives *)

Example replace_leftmost_no_overlap : PyStr.replace "aa" "b" "aaa" = "ba".
Proof. reflexivity. Qed.

Example replace_runs_of_backticks : PyStr.replace "```" EmptyString "``````a`````b" = "a``b".
Proof. reflexivity. Qed.

Example split_runs_of_whitespace :
  PyStr.split (" Hola.  Esto" ++ TAB ++ "es" ++ LF ++ "una   prueba. ")
  = ["Hola."; "Esto"; "es"; "una"; "prueba."].
Proof. reflexivity. Qed.

Example strip_both_ends : PyStr.strip ("  a b " ++ LF) = "a b".
Proof. reflexivity. Qed.

Example strip_blank : PyStr.strip "   " = EmptyString.
Proof. reflexivity. Qed.

Example capitalize_label : PyStr.capitalize "bAJO" = "Bajo".
Proof. reflexivity. Qed.

Example endswith_after_lower : PyStr.endswith ".txt" (PyStr.lower "a.TXT") = true.
Proof. reflexivity. Qed.

Example endswith_is_a_suffix_test : PyStr.endswith ".tiff" "x.tiff.exe" = false.
Proof. reflexivity. Qed.

Example diagnosticar_rate_limit :
  diagnosticar_error_gemini "429 Rate LIMIT"
  = "Cuota de API alcanzada - Has excedido el límite de requests".
Proof. reflexivity. Qed.

(** ** The set model counts distinct elements *)

Section PySetFacts.

Variable str_key : string -> Z.

Lemma set_place_perm (x : string) (s : list string) :
  Permutation (set_place str_key x s) (x :: s).
Proof.
  induction s as [|y s IH]; simpl.
  - reflexivity.
  - destruct (str_key x <? str_key y).
    + reflexivity.
    + rewrite IH. apply perm_swap.
Qed.

Lemma existsb_eqb_In (x : string) (s : list string) :
  existsb (String.eqb x) s = true <-> In x s.
Proof.
  rewrite existsb_exists. split.
  - intros [y [Hy Heq]]. apply String.eqb_eq in Heq. now subst.
  - intros H. exists x. split; [assumption | apply String.eqb_refl].
Qed.

Lemma set_add_In (x y : string) (s : list string) :
  In y (set_add str_key x s) <-> y = x \/ In y s.
Proof.
  unfold set_add. destruct (existsb (String.eqb x) s) eqn:E.
  - apply existsb_eqb_In in E. split; [now right | intros [->|H]; assumption].
  - split; intros H.
    + apply (Permutation_in _ (set_place_perm x s)) in H.
      destruct H as [H|H]; [left; now symmetry | now right].
    + apply (Permutation_in _ (Permutation_sym (set_place_perm x s))).
      destruct H as [->|H]; [now left | now right].
Qed.

Lemma set_add_NoDup (x : string) (s : list string) :
  NoDup s -> NoDup (set_add str_key x s).
Proof.
  intros Hs. unfold set_add. destruct (existsb (String.eqb x) s) eqn:E.
  - assumption.
  - apply (Permutation_NoDup (Permutation_sym (set_place_perm x s))).
    constructor; [|assumption].
    intros Hin. apply existsb_eqb_In in Hin. congruence.
Qed.

Lemma fold_set_add (l s : list string) :
  NoDup s ->
  NoDup (fold_left (fun s x => set_add str_key x s) l s) /\
  (forall y, In y (fold_left (fun s x => set_add str_key x s) l s) <-> In y s \/ In y l).
Proof.
  revert s. induction l as [|x l IH]; intros s Hs; simpl.
  - split; [assumption | intros y; tauto].
  - destruct (IH (set_add str_key x s) (set_add_NoDup x s Hs)) as [Hnd Hin].
    split; [assumption|].
    intros y. rewrite Hin, set_add_In. intuition congruence.
Qed.

(** [len(set(l))] is the number of distinct elements of [l], whatever the
    order the process keeps them in. *)
Lemma len_set_distinct (l : list string) :
  len_set str_key l = len_list (nodup string_dec l).
Proof.
  unfold len_set, len_list, pyset. f_equal.
  destruct (fold_set_add l [] (NoDup_nil _)) as [Hnd Hin].
  apply Permutation_length, NoDup_Permutation.
  - assumption.
  - apply NoDup_nodup.
  - intros y. rewrite Hin, nodup_In. simpl. tauto.
Qed.

End PySetFacts.

Lemma nodup_length_le {A : Type} (dec : forall x y : A, {x = y} + {x <> y}) (l : list A) :
  (List.length (nodup dec l) <= List.length l)%nat.
Proof.
  induction l as [|a l IH]; simpl.
  - lia.
  - destruct (in_dec dec a l); simpl; lia.
Qed.

Lemma distinct_le_total (texto : string) :
  0 <= distinct_tokens texto <= total_tokens texto.
Proof.
  unfold distinct_tokens, total_tokens, len_list.
  pose proof (nodup_length_le string_dec (PyStr.split texto)). lia.
Qed.

(** ** The heuristic scorer *)

Lemma Qltb_ratio (u t : Z) :
  0 < t -> Qltb (inject_Z u / inject_Z t)%Q (6 # 10) = (5 * u <? 3 * t).
Proof.
  intros Ht. destruct t as [|p|p]; try lia.
  unfold Qltb, Qdiv, Qmult, Qinv, inject_Z; simpl Qnum; simpl Qden.
  destruct (Z.ltb_spec (5 * u) (3 * Z.pos p)), (Z.ltb_spec (u * 1 * 10) (6 * Z.pos p));
    try reflexivity; lia.
Qed.

Lemma high_repetition_code (str_key : string -> Z) (texto : string) :
  (if 10 <? len_list (PyStr.split texto)
   then ratio_lt_0_6 (len_set str_key (PyStr.split texto)) (len_list (PyStr.split texto))
   else false) = high_repetition texto.
Proof.
  unfold high_repetition, token_ratio, total_tokens, ratio_lt_0_6.
  rewrite len_set_distinct. fold (distinct_tokens texto).
  destruct (Z.ltb_spec 10 (len_list (PyStr.split texto))) as [H|H]; simpl; [|reflexivity].
  symmetry. apply Qltb_ratio. lia.
Qed.

Lemma densidad_vocabulario_counts (str_key : string -> Z) (tie_up : Z -> Z -> bool)
    (texto : string) :
  densidad_vocabulario str_key tie_up texto = density_of tie_up texto.
Proof.
  unfold densidad_vocabulario, density_of, total_tokens, distinct_tokens.
  rewrite len_set_distinct.
  destruct (PyStr.split texto) as [|w l]; [reflexivity|].
  replace (len_list (w :: l) =? 0) with false; [reflexivity|].
  symmetry. apply Z.eqb_neq. unfold len_list. simpl List.length. lia.
Qed.

(** The whole report of the scorer, field by field. *)
Lemma analisis_fallback_report (str_key : string -> Z) (tie_up : Z -> Z -> bool)
    (texto nivel_educativo : string) :
  analisis_fallback str_key tie_up texto nivel_educativo =
  JObj
    [ ("porcentaje", JInt (Z.min (raw_score texto) 100));
      ("color", JStr (if raw_score texto <? 50 then "green"
                      else if raw_score texto <? 75 then "yellow" else "red"));
      ("label", JStr (if raw_score texto <? 50 then "Bajo"
                      else if raw_score texto <? 75 then "Medio" else "Alto"));
      ("indicadores", JArr (map JStr (heuristic_indicators texto nivel_educativo)));
      ("preguntas", JArr (map JStr preguntas_fallback));
      ("filename", JStr EmptyString);
      ("analizado_con_ia", JBool false);
      ("nivel_educativo", JStr nivel_educativo);
      ("error_info", JStr "Análisis automático (fallback)");
      ("longitud_texto", JInt (PyStr.len texto));
      ("palabras_unicas", JInt (distinct_tokens texto));
      ("densidad_vocabulario", density_of tie_up texto) ].
Proof.
  pose proof (high_repetition_code str_key texto) as Hrep.
  unfold analisis_fallback, raw_score, heuristic_indicators, level_indicator.
  rewrite densidad_vocabulario_counts.
  rewrite <- Hrep, !len_set_distinct. fold (distinct_tokens texto).
  fold (short_text texto) (few_periods texto) (limited_vocabulary texto).
  unfold existsb. rewrite !orb_false_r.
  destruct (short_text texto), (few_periods texto), (limited_vocabulary texto),
    (10 <? len_list (PyStr.split texto)),
    (ratio_lt_0_6 (distinct_tokens texto) (len_list (PyStr.split texto)));
    destruct (String.eqb nivel_educativo "basica-1-4"
              || String.eqb nivel_educativo "basica-5-8");
    destruct (String.eqb nivel_educativo "medio-1-2"
              || String.eqb nivel_educativo "medio-3-4");
    reflexivity.
Qed.

Lemma raw_score_bounds (texto : string) : 50 <= raw_score texto <= 120.
Proof.
  unfold raw_score, penalty.
  destruct (short_text texto), (few_periods texto), (limited_vocabulary texto),
    (high_repetition texto); lia.
Qed.

(** C3. For every text and level the heuristic scorer reports 50 plus the
    four fixed penalties (short text 20, few periods 15, limited vocabulary
    15, high repetition 20), clamped at 100, and its indicators are those of
    the triggered penalties, in that order, followed by the level's
    indicator. *)
Theorem analisis_fallback_penalties :
  forall (str_key : string -> Z) (tie_up : Z -> Z -> bool) (texto nivel_educativo : string),
    field "porcentaje" (analisis_fallback str_key tie_up texto nivel_educativo)
      = Some (JInt (heuristic_percentage texto))
    /\ field "indicadores" (analisis_fallback str_key tie_up texto nivel_educativo)
      = Some (JArr (map JStr (heuristic_indicators texto nivel_educativo))).
Proof.
  intros str_key tie_up texto nivel.
  rewrite analisis_fallback_report.
  unfold heuristic_percentage. fold (raw_score texto).
  rewrite Z.min_comm. split; reflexivity.
Qed.

(** C10. For every text and level the scorer's percentage lies between 50
    and 100, so the report is in the Medium or in the High tier: its color
    is never green and its label never Bajo. *)
Theorem analisis_fallback_medium_or_high :
  forall (str_key : string -> Z) (tie_up : Z -> Z -> bool) (texto nivel_educativo : string),
    let report := analisis_fallback str_key tie_up texto nivel_educativo in
    (exists p, field "porcentaje" report = Some (JInt p) /\ 50 <= p <= 100)
    /\ field "color" report <> Some (JStr "green")
    /\ field "label" report <> Some (JStr "Bajo")
    /\ ((field "color" report = Some (JStr "yellow")
         /\ field "label" report = Some (JStr "Medio"))
        \/ (field "color" report = Some (JStr "red")
            /\ field "label" report = Some (JStr "Alto"))).
Proof.
  intros str_key tie_up texto nivel report. subst report.
  rewrite analisis_fallback_report.
  pose proof (raw_score_bounds texto) as Hb.
  cbn [field Py.lookup String.eqb Ascii.eqb Bool.eqb].
  split.
  - exists (Z.min (raw_score texto) 100). split; [reflexivity | lia].
  - destruct (Z.ltb_spec (raw_score texto) 50) as [H|H]; [lia|].
    destruct (raw_score texto <? 75).
    + repeat split; try discriminate. left. split; reflexivity.
    + repeat split; try discriminate. right. split; reflexivity.
Qed.

(** C9. The heuristic scorer is a function of the text and the level alone:
    two runs on the same input return the same report, also when the two
    processes keep the elements of their sets in different orders.  It has
    no state to read or to change. *)
Theorem analisis_fallback_deterministic :
  forall (key_run1 key_run2 : string -> Z) (tie_up : Z -> Z -> bool)
         (texto1 nivel1 texto2 nivel2 : string),
    texto1 = texto2 -> nivel1 = nivel2 ->
    analisis_fallback key_run1 tie_up texto1 nivel1
    = analisis_fallback key_run2 tie_up texto2 nivel2.
Proof.
  intros k1 k2 tie_up texto1 nivel1 texto2 nivel2 -> ->.
  now rewrite !analisis_fallback_report.
Qed.

(** ** Vocabulary density *)

Lemma round1_pct_nearest (tie_up : Z -> Z -> bool) (u t : Z) :
  0 <= u <= t -> 0 < t ->
  exists k, round1_pct tie_up u t = (k # 10)%Q /\ 0 <= k <= 1000
            /\ Z.abs (2 * (1000 * u - k * t)) <= t.
Proof.
  intros Hu Ht. unfold round1_pct.
  pose proof (Z.div_mod (1000 * u) t ltac:(lia)) as Hdm.
  pose proof (Z.mod_pos_bound (1000 * u) t Ht) as Hr.
  set (k := 1000 * u / t) in *. set (r := (1000 * u) mod t) in *.
  assert (0 <= k) by (subst k; apply Z.div_pos; lia).
  assert (k <= 1000) by (subst k; apply Z.div_le_upper_bound; lia).
  assert (k = 1000 -> r = 0) by nia.
  destruct (Z.ltb_spec (2 * r) t).
  - exists k. repeat split; lia.
  - assert (k < 1000) by lia.
    destruct (Z.ltb_spec t (2 * r)).
    + exists (k + 1). repeat split; lia.
    + destruct (tie_up u t).
      * exists (k + 1). repeat split; lia.
      * exists k. repeat split; lia.
Qed.

Lemma nearest_tenth_Q (u t k : Z) :
  0 < t -> Z.abs (2 * (1000 * u - k * t)) <= t ->
  (Qabs (inject_Z u / inject_Z t * (100 # 1) * 10 - inject_Z k) <= 1 # 2)%Q.
Proof.
  intros Ht H. apply Qabs_Qle_condition.
  destruct t as [|p|p]; try lia.
  unfold Qle, Qdiv, Qmult, Qinv, Qminus, Qplus, Qopp, inject_Z; simpl.
  split; lia.
Qed.

Lemma density_of_spec (tie_up : Z -> Z -> bool) (texto : string) :
  density_spec texto (density_of tie_up texto).
Proof.
  unfold density_spec, density_of.
  pose proof (distinct_le_total texto) as Hle.
  destruct (Z.eqb_spec (total_tokens texto) 0) as [H0|H0].
  - exists (inject_Z 0). repeat split; try reflexivity; try lia.
    + unfold Qle; simpl; lia.
    + unfold Qle; simpl; lia.
  - assert (0 < total_tokens texto) as Hpos by lia.
    destruct (round1_pct_nearest tie_up _ _ Hle Hpos) as [k [Hk [Hrange Hnear]]].
    exists (k # 10)%Q. rewrite Hk. repeat split; try lia.
    + unfold Qle; simpl; lia.
    + unfold Qle; simpl; lia.
    + intros _. exists k. split; [reflexivity|].
      unfold token_ratio. now apply nearest_tenth_Q.
Qed.

(** ** What a successful expansion returns *)

Section ExpandirFacts.

Variable str_key : string -> Z.
Variable tie_up : Z -> Z -> bool.
Variable json_loads : string -> result json.

Lemma expandir_ok (respuesta texto nivel : string) (a : analysis) :
  expandir str_key tie_up json_loads respuesta texto nivel = Ok a ->
  exists fields color label,
    json_loads respuesta = Ok (JObj fields)
    /\ color_y_label (Py.dict_get fields "porcentaje" (JInt 50)) = Ok (color, label)
    /\ a = (JObj
              [ ("porcentaje", Py.dict_get fields "porcentaje" (JInt 50));
                ("color", JStr color);
                ("label", JStr label);
                ("indicadores", Py.dict_get fields "indicadores" (JArr []));
                ("preguntas", Py.dict_get fields "preguntas" (JArr []));
                ("filename", JStr EmptyString);
                ("analizado_con_ia", JBool true);
                ("nivel_educativo", JStr nivel);
                ("error_info", JStr "Análisis exitoso con IA");
                ("longitud_texto", JInt (PyStr.len texto));
                ("palabras_unicas", JInt (distinct_tokens texto));
                ("densidad_vocabulario", density_of tie_up texto) ],
            true, "Análisis exitoso con IA").
Proof.
  unfold expandir. intros H.
  destruct (json_loads respuesta) as [data|e]; [|discriminate].
  destruct data as [| | | | |fields]; try discriminate.
  cbn [bind Py.get] in H.
  destruct (color_y_label (Py.dict_get fields "porcentaje" (JInt 50)))
    as [[color label]|e] eqn:Ht; [|discriminate].
  cbn [bind] in H. injection H as <-.
  exists fields, color, label. split; [reflexivity|]. split; [exact Ht|].
  now rewrite len_set_distinct, densidad_vocabulario_counts.
Qed.

(** The pair chosen by the two comparisons. *)
Lemma color_y_label_ok (porcentaje : json) (color label : string) :
  color_y_label porcentaje = Ok (color, label) ->
  (Py.lt porcentaje 50 = Ok true /\ color = "green" /\ label = "Bajo")
  \/ (Py.lt porcentaje 50 = Ok false /\ Py.lt porcentaje 75 = Ok true
      /\ color = "yellow" /\ label = "Medio")
  \/ (Py.lt porcentaje 50 = Ok false /\ Py.lt porcentaje 75 = Ok false
      /\ color = "red" /\ label = "Alto").
Proof.
  unfold color_y_label. intros H.
  destruct (Py.lt porcentaje 50) as [[|]|e]; cbn [bind] in H; try discriminate.
  - injection H as <- <-. left. now repeat split.
  - destruct (Py.lt porcentaje 75) as [[|]|e]; cbn [bind] in H; try discriminate;
      injection H as <- <-; right; [left | right]; now repeat split.
Qed.

End ExpandirFacts.

(** C5. For every text, the vocabulary density of a report (of the scorer
    and of every successful expansion of a model answer) is computed from
    the tokens of the extracted text: it is 0 when there is no token,
    otherwise distinct / total * 100 rounded to one decimal, where distinct
    is the report's own count of unique words; it is never negative and
    never above 100. *)
Theorem vocabulary_density_rounded_in_range :
  forall (str_key : string -> Z) (tie_up : Z -> Z -> bool)
         (json_loads : string -> result json) (texto nivel_educativo : string),
    let populated (report : json) :=
      field "palabras_unicas" report = Some (JInt (distinct_tokens texto))
      /\ exists v, field "densidad_vocabulario" report = Some v /\ density_spec texto v in
    populated (analisis_fallback str_key tie_up texto nivel_educativo)
    /\ forall (respuesta : string) (report : json) (ok : bool) (message : string),
         expandir str_key tie_up json_loads respuesta texto nivel_educativo
           = Ok (report, ok, message) ->
         populated report.
Proof.
  intros str_key tie_up json_loads texto nivel populated. subst populated. split.
  - rewrite analisis_fallback_report. split; [reflexivity|].
    exists (density_of tie_up texto). split; [reflexivity | apply density_of_spec].
  - intros respuesta report ok message H.
    apply expandir_ok in H. destruct H as [fields [color [label [_ [_ H]]]]].
    injection H as -> _ _. split; [reflexivity|].
    exists (density_of tie_up texto). split; [reflexivity | apply density_of_spec].
Qed.

(** ** Tiers *)

(** On 0..100 the tier of the two thresholds is the tier of the table. *)
Lemma tier_of_in_tier (q : Q) (color label : string) :
  (color, label) = tier_of q -> in_tier q color label.
Proof.
  unfold tier_of, Qltb, in_tier, Qlt, Qle. cbn [Qnum Qden]. intros H.
  destruct (Z.ltb_spec (Qnum q * 1) (50 * QDen q)).
  - injection H as -> ->. repeat split; try reflexivity; lia.
  - destruct (Z.ltb_spec (Qnum q * 1) (75 * QDen q));
      injection H as -> ->; repeat split; try reflexivity; lia.
Qed.

(** What having the tier that belongs to the percentage entails. *)
Lemma expected_tier_tiered (report p : json) (color label : string) :
  field "porcentaje" report = Some p ->
  field "color" report = Some (JStr color) ->
  field "label" report = Some (JStr label) ->
  expected_tier p = Some (color, label) ->
  tiered report.
Proof.
  intros Hp Hc Hl He. exists p, color, label.
  repeat (split; [assumption|]). split; [|split; [|split; [assumption|]]].
  - intros ->. discriminate.
  - unfold expected_tier, tier_of, tiers in *.
    destruct (Py.real_value p) as [q|].
    + destruct (Qltb q (50 # 1)); [|destruct (Qltb q (75 # 1))];
        injection He as <- <-; simpl; tauto.
    + destruct p as [| |[z|f| |[|]]| | |]; try discriminate;
        injection He as <- <-; simpl; tauto.
  - intros q Hq. unfold expected_tier in He. rewrite Hq in He.
    injection He as He. split; [now symmetry|]. apply tier_of_in_tier. now symmetry.
Qed.

(** The two comparisons of the code choose the tier that belongs to the
    percentage. *)
Lemma color_y_label_expected (porcentaje : json) (color label : string) :
  color_y_label porcentaje = Ok (color, label) ->
  expected_tier porcentaje = Some (color, label).
Proof.
  unfold color_y_label, expected_tier, tier_of, Qltb.
  destruct porcentaje as [|b|[z|f| |[|]]| | |]; cbn [Py.lt Py.num_lt Py.real_value bind];
    try discriminate; cbn [Qnum Qden inject_Z];
    rewrite ?Z.mul_1_r;
    repeat match goal with
           | |- context [if ?c then _ else _] => destruct c; cbn [bind]
           end;
    intros H; try discriminate; injection H as <- <-; reflexivity.
Qed.

Lemma analisis_fallback_tiered (str_key : string -> Z) (tie_up : Z -> Z -> bool)
    (texto nivel : string) :
  tiered (analisis_fallback str_key tie_up texto nivel).
Proof.
  rewrite analisis_fallback_report.
  eapply expected_tier_tiered; try reflexivity.
  unfold expected_tier, tier_of, Qltb, JInt. cbn [Py.real_value Qnum Qden inject_Z].
  rewrite !Z.mul_1_r.
  pose proof (raw_score_bounds texto).
  destruct (Z.ltb_spec (raw_score texto) 50), (Z.ltb_spec (raw_score texto) 75),
    (Z.ltb_spec (Z.min (raw_score texto) 100) 50),
    (Z.ltb_spec (Z.min (raw_score texto) 100) 75); try reflexivity; lia.
Qed.

Lemma expandir_tiered (str_key : string -> Z) (tie_up : Z -> Z -> bool)
    (json_loads : string -> result json) (respuesta texto nivel : string)
    (report : json) (ok : bool) (message : string) :
  expandir str_key tie_up json_loads respuesta texto nivel = Ok (report, ok, message) ->
  tiered report.
Proof.
  intros H. apply expandir_ok in H.
  destruct H as [fields [color [label [_ [Ht H]]]]]. injection H as -> _ _.
  apply color_y_label_expected in Ht.
  eapply expected_tier_tiered; try reflexivity. exact Ht.
Qed.

(** C4. In every report of either path (the heuristic scorer, and the
    normalizer whether it expands the model's answer or falls back) color
    and label are a function of the report's percentage: the percentage is
    present and not null, color and label are one of green/Bajo,
    yellow/Medio, red/Alto, and they are the tier the two thresholds give
    for the percentage, so green/Bajo on [0,50), yellow/Medio on [50,75)
    and red/Alto on [75,100]. *)
Theorem color_label_follow_percentage :
  forall (str_key : string -> Z) (tie_up : Z -> Z -> bool)
         (json_loads : string -> result json) (texto nivel_educativo : string),
    tiered (analisis_fallback str_key tie_up texto nivel_educativo)
    /\ forall (respuesta : string),
         exists (report : json) (ok : bool) (message : string),
           transformar_respuesta_gemini str_key tie_up json_loads
             respuesta texto nivel_educativo = Ok (report, ok, message)
           /\ tiered report.
Proof.
  intros str_key tie_up json_loads texto nivel. split.
  - apply analisis_fallback_tiered.
  - intros respuesta. unfold transformar_respuesta_gemini, try_except.
    destruct (expandir str_key tie_up json_loads respuesta texto nivel)
      as [[[report ok] message]|e] eqn:E.
    + exists report, ok, message. split; [reflexivity|].
      eapply expandir_tiered; eassumption.
    + eexists _, _, _. split; [reflexivity|]. apply analisis_fallback_tiered.
Qed.

(** ** Failures of the normalizer and of the call *)

Section NormalizerFacts.

Variable str_key : string -> Z.
Variable tie_up : Z -> Z -> bool.
Variable json_loads : string -> result json.

Lemma expandir_failure (respuesta texto nivel e : string) :
  transform_failure json_loads respuesta = Some e ->
  expandir str_key tie_up json_loads respuesta texto nivel = Raise e.
Proof.
  unfold transform_failure, expandir. intros H.
  destruct (json_loads respuesta) as [data|e'].
  - destruct data as [| | | | |fields]; try (injection H as <-; reflexivity).
    cbn [bind Py.get].
    destruct (Py.dict_get fields "porcentaje" (JInt 50)) as [| | | | |];
      try discriminate; injection H as <-; reflexivity.
  - injection H as <-. reflexivity.
Qed.

Lemma expandir_success (respuesta texto nivel : string) :
  transform_failure json_loads respuesta = None ->
  exists report,
    expandir str_key tie_up json_loads respuesta texto nivel
    = Ok (report, true, "Análisis exitoso con IA").
Proof.
  unfold transform_failure, expandir. intros H.
  destruct (json_loads respuesta) as [data|e']; [|discriminate].
  destruct data as [| | | | |fields]; try discriminate.
  cbn [bind Py.get].
  destruct (Py.dict_get fields "porcentaje" (JInt 50)) as [|b|n| | |];
    try discriminate; unfold color_y_label; cbn [Py.lt bind].
  - destruct (Z.b2z b <? 50); cbn [bind]; [eexists; reflexivity|].
    destruct (Z.b2z b <? 75); cbn [bind]; eexists; reflexivity.
  - destruct (Py.num_lt n 50); cbn [bind]; [eexists; reflexivity|].
    destruct (Py.num_lt n 75); cbn [bind]; eexists; reflexivity.
Qed.

(** The normalizer always returns, and what it returns is either a
    successful expansion or the scorer's report with the failure. *)
Lemma transformar_cases (respuesta texto nivel : string) :
  (exists report,
      expandir str_key tie_up json_loads respuesta texto nivel
        = Ok (report, true, "Análisis exitoso con IA")
      /\ transformar_respuesta_gemini str_key tie_up json_loads respuesta texto nivel
         = Ok (report, true, "Análisis exitoso con IA"))
  \/ (exists e,
      transform_failure json_loads respuesta = Some e
      /\ transformar_respuesta_gemini str_key tie_up json_loads respuesta texto nivel
         = Ok (analisis_fallback str_key tie_up texto nivel, false,
               ("Error transformando respuesta: " ++ e)%string)).
Proof.
  unfold transformar_respuesta_gemini, try_except.
  destruct (transform_failure json_loads respuesta) as [e|] eqn:F.
  - right. exists e. split; [reflexivity|].
    now rewrite (expandir_failure _ texto nivel _ F).
  - left. destruct (expandir_success _ texto nivel F) as [report Hr].
    exists report. now rewrite Hr.
Qed.

End NormalizerFacts.

(** C7. For every cleaned answer whose parsing or expansion fails (the
    parser raises, the parsed JSON is not an object, or its percentage is
    not comparable with a number), the normalizer does not raise: it
    returns the scorer's report for the original text and level, ok =
    false, and a message that describes the failure.  It returns in every
    other case too. *)
Theorem transformar_falls_back_on_failure :
  forall (str_key : string -> Z) (tie_up : Z -> Z -> bool)
         (json_loads : string -> result json) (respuesta texto nivel_educativo : string),
    (forall e,
        transform_failure json_loads respuesta = Some e ->
        transformar_respuesta_gemini str_key tie_up json_loads
          respuesta texto nivel_educativo
        = Ok (analisis_fallback str_key tie_up texto nivel_educativo, false,
              ("Error transformando respuesta: " ++ e)%string))
    /\ (exists a,
          transformar_respuesta_gemini str_key tie_up json_loads
            respuesta texto nivel_educativo = Ok a)
    /\ (forall report message,
          transformar_respuesta_gemini str_key tie_up json_loads
            respuesta texto nivel_educativo = Ok (report, false, message) ->
          transform_failure json_loads respuesta <> None).
Proof.
  intros str_key tie_up json_loads respuesta texto nivel.
  destruct (transformar_cases str_key tie_up json_loads respuesta texto nivel)
    as [[report [He Ht]] | [e [F Ht]]].
  - repeat split.
    + intros e F.
      pose proof (expandir_failure str_key tie_up json_loads _ texto nivel _ F).
      congruence.
    + eexists; exact Ht.
    + intros r m H. congruence.
  - repeat split.
    + intros e' F'. congruence.
    + eexists; exact Ht.
    + congruence.
Qed.

(** A branch that returns the scorer's report with the flag false: the
    triple is read off the goal, what is left are the side conditions on
    the message. *)
Ltac fallback_branch :=
  eexists _, _, _; split; [reflexivity|];
  repeat split; try reflexivity; try discriminate; try contradiction.

(** C2. For every text, level and outcome of the call to the model, the
    orchestrator returns (it never raises).  When the call fails (an
    exception, a null response, a response without text, an empty or
    all-whitespace text) the result is the scorer's report with the flag
    false and the classified reason as message; whenever the flag is false
    the report is the scorer's; the flag is true only when the cleaned text
    of the reply was expanded successfully. *)
Theorem analizar_con_gemini_never_raises :
  forall (str_key : string -> Z) (tie_up : Z -> Z -> bool)
         (json_loads : string -> result json) (api_key texto nivel_educativo : string)
         (reply : gemini_reply),
    exists (report : json) (ok : bool) (message : string),
      analizar_con_gemini str_key tie_up json_loads api_key texto nivel_educativo reply
        = Ok (report, ok, message)
      /\ (ok = false -> report = analisis_fallback str_key tie_up texto nivel_educativo)
      /\ (forall reason,
            call_failure reply = Some reason ->
            ok = false
            /\ (PyStr.strip texto <> EmptyString -> key_configured api_key = true ->
                message = reason))
      /\ (PyStr.strip texto = EmptyString -> ok = false /\ message = "Texto vacío")
      /\ (ok = true ->
          exists s,
            reply = ReplyText (Some s) /\ call_failure reply = None
            /\ expandir str_key tie_up json_loads (limpiar_respuesta_gemini s)
                 texto nivel_educativo = Ok (report, true, message)).
Proof.
  intros str_key tie_up json_loads api_key texto nivel reply.
  unfold analizar_con_gemini, key_configured.
  destruct (String.eqb_spec (PyStr.strip texto) EmptyString) as [Hblank|Hblank];
    [fallback_branch|].
  destruct (String.eqb api_key EmptyString || String.eqb api_key "tu_api_key_aqui")
    eqn:Hkey; [fallback_branch|].
  destruct reply as [e| | |[s|]]; cbn [try_except call_failure];
    try (fallback_branch; intros _ _; congruence).
  destruct (String.eqb_spec s EmptyString) as [->|Hs]; cbn [orb].
  { fallback_branch. intros _ _. cbn in *. congruence. }
  destruct (String.eqb (PyStr.strip s) EmptyString) eqn:Hstrip.
  { fallback_branch. intros _ _. congruence. }
  destruct (transformar_cases str_key tie_up json_loads
              (limpiar_respuesta_gemini s) texto nivel)
    as [[report [He Ht]] | [e [F Ht]]]; rewrite Ht.
  - exists report, true, "Análisis exitoso con IA". split; [reflexivity|].
    repeat split; try discriminate; try contradiction.
    intros _. exists s. repeat split; assumption.
  - fallback_branch.
Qed.

(** ** Validation at the boundary *)

Lemma allowed_file_false (name : string) :
  (forall ext, In ext ALLOWED_EXTENSIONS -> PyStr.endswith ext (PyStr.lower name) = false) ->
  allowed_file name = false.
Proof.
  intros H. unfold allowed_file.
  destruct (existsb _ ALLOWED_EXTENSIONS) eqn:E; [|reflexivity].
  apply existsb_exists in E. destruct E as [ext [Hin Hend]].
  rewrite (H ext Hin) in Hend. discriminate.
Qed.

(** C8. A request with no file or an empty file name, with no (or an
    empty) education level, with a file name that ends in none of the
    allowed extensions, case ignored, or with a file of more than 10 MiB is
    answered 400 with the message of a constraint it breaks, and no step of
    the analysis pipeline is started. *)
Theorem analizar_rejects_invalid_requests :
  forall (str_key : string -> Z) (tie_up : Z -> Z -> bool)
         (json_loads : string -> result json) (api_key : string)
         (req : request) (w : world) (r : rejection),
    violates req r ->
    exists r',
      violates req r'
      /\ analizar str_key tie_up json_loads api_key req w
         = (error_response 400 (rejection_message r'), []).
Proof.
  intros str_key tie_up json_loads api_key [file nivel] w r Hr.
  unfold analizar. cbn [req_file req_nivel].
  destruct file as [file|]; [|exists NoFile; split; [now left | reflexivity]].
  destruct (String.eqb_spec (filename file) EmptyString) as [Hname|Hname].
  { exists NoFile. split; [right; now exists file | reflexivity]. }
  destruct nivel as [nivel|]; [|exists NoLevel; split; [now left | reflexivity]].
  destruct (String.eqb_spec nivel EmptyString) as [->|Hnivel].
  { exists NoLevel. split; [now right | reflexivity]. }
  destruct (allowed_file (filename file)) eqn:Hallowed; cbn [negb].
  - destruct (Z.ltb_spec MAX_FILE_SIZE (file_size file)) as [Hsize|Hsize].
    + exists TooLarge. split; [exists file; split; [reflexivity | exact Hsize] | reflexivity].
    + exfalso. destruct r; cbn [violates req_file req_nivel] in Hr.
      * destruct Hr as [Hr|[f [Hf Hn]]]; [discriminate | injection Hf as <-; contradiction].
      * destruct Hr as [Hr|Hr]; [discriminate | injection Hr as Hr; contradiction].
      * destruct Hr as [f [Hf Hext]]. injection Hf as <-.
        apply allowed_file_false in Hext. congruence.
      * destruct Hr as [f [Hf Hbig]]. injection Hf as <-.
        unfold MAX_FILE_SIZE in Hsize. lia.
  - exists BadExtension. split; [|reflexivity].
    exists file. split; [reflexivity|].
    intros ext Hin. destruct (PyStr.endswith ext (PyStr.lower (filename file))) eqn:E;
      [|reflexivity].
    assert (allowed_file (filename file) = true) as Habs
      by (unfold allowed_file; apply existsb_exists; now exists ext).
    congruence.
Qed.

(** ** The outward response *)

Section HandlerFacts.

Variable str_key : string -> Z.
Variable tie_up : Z -> Z -> bool.
Variable json_loads : string -> result json.
Variable api_key : string.

(** The orchestrator returns the scorer's report with the flag false, or
    a successful expansion with the flag true. *)
Lemma orchestrator_cases (texto nivel : string) (r : gemini_reply) :
  (exists message,
      analizar_con_gemini str_key tie_up json_loads api_key texto nivel r
      = Ok (analisis_fallback str_key tie_up texto nivel, false, message))
  \/ (exists respuesta report,
      expandir str_key tie_up json_loads respuesta texto nivel
        = Ok (report, true, "Análisis exitoso con IA")
      /\ analizar_con_gemini str_key tie_up json_loads api_key texto nivel r
         = Ok (report, true, "Análisis exitoso con IA")).
Proof.
  unfold analizar_con_gemini.
  destruct (String.eqb (PyStr.strip texto) EmptyString); [left; eexists; reflexivity|].
  destruct (String.eqb api_key EmptyString || String.eqb api_key "tu_api_key_aqui");
    [left; eexists; reflexivity|].
  destruct r as [e| | |[s|]]; cbn [try_except]; try (left; eexists; reflexivity).
  destruct (String.eqb s EmptyString || String.eqb (PyStr.strip s) EmptyString);
    [left; eexists; reflexivity|].
  destruct (transformar_cases str_key tie_up json_loads
              (limpiar_respuesta_gemini s) texto nivel)
    as [[report [He Ht]] | [e [F Ht]]]; rewrite Ht.
  - right. exists (limpiar_respuesta_gemini s), report. now split.
  - left. eexists; reflexivity.
Qed.

Lemma lt_ok_not_null (v : json) (k : Z) (b : bool) : Py.lt v k = Ok b -> v <> JNull.
Proof. destruct v; simpl; congruence. Qed.

(** What the handler answers once the orchestrator has run. *)
Lemma responder_fields (file : upload) (nivel texto : string) (r : gemini_reply) :
  exists resp,
    responder str_key tie_up json_loads api_key file nivel texto r = Ok resp
    /\ status resp = 200
    /\ forall key, In key report_keys ->
         exists v, field key (body resp) = Some v
                   /\ (v = JNull ->
                       (key = "indicadores" \/ key = "preguntas")
                       /\ field "analizado_con_ia" (body resp) = Some (JBool true)).
Proof.
  unfold responder.
  destruct (orchestrator_cases texto nivel r) as [[message H] | [respuesta [report [He H]]]];
    rewrite H; cbn [bind].
  - rewrite analisis_fallback_report.
    cbn [Py.get Py.dict_get Py.lookup String.eqb Ascii.eqb Bool.eqb bind Py.capitalize].
    eexists. split; [reflexivity|]. split; [reflexivity|].
    intros key Hin. cbn [body field Py.lookup].
    repeat (destruct Hin as [<-|Hin];
            [cbn [String.eqb Ascii.eqb Bool.eqb]; eexists; split;
             [reflexivity | try discriminate]|]);
      try contradiction.
    unfold density_of. destruct (total_tokens texto =? 0); discriminate.
  - apply expandir_ok in He.
    destruct He as [fields [color [label [_ [Ht He]]]]]. injection He as ->.
    cbn [Py.get Py.dict_get Py.lookup String.eqb Ascii.eqb Bool.eqb bind Py.capitalize].
    eexists. split; [reflexivity|]. split; [reflexivity|].
    intros key Hin. cbn [body field Py.lookup].
    repeat (destruct Hin as [<-|Hin];
            [cbn [String.eqb Ascii.eqb Bool.eqb]; eexists; split;
             [reflexivity | try discriminate]|]);
      try contradiction.
    + intros Hnull. exfalso. apply color_y_label_ok in Ht.
      destruct Ht as [[L _] | [[L _] | [L _]]];
        apply lt_ok_not_null in L; contradiction.
    + intros _. split; [now left | reflexivity].
    + intros _. split; [now right | reflexivity].
    + unfold density_of. destruct (total_tokens texto =? 0); discriminate.
Qed.

End HandlerFacts.

(** C1, as the code has it.  For every request that passes validation and
    whose extracted text is not empty (the model succeeded, the model
    failed, or its JSON was malformed), the handler runs the pipeline and
    answers 200 with an object that has every field of a Report.  None of
    them is null, except that [indicadores] and [preguntas] of a report made
    with the model are the values the model's JSON gave, whatever they
    are. *)
Theorem analizar_report_fields :
  forall (str_key : string -> Z) (tie_up : Z -> Z -> bool)
         (json_loads : string -> result json) (api_key : string)
         (file : upload) (nivel : string) (w : world),
    filename file <> EmptyString ->
    nivel <> EmptyString ->
    allowed_file (filename file) = true ->
    file_size file <= MAX_FILE_SIZE ->
    staging w = Ok tt ->
    extracted w <> EmptyString ->
    exists resp,
      analizar str_key tie_up json_loads api_key
        {| req_file := Some file; req_nivel := Some nivel |} w
      = (resp, [Staged; Extracted; Analyzed])
      /\ status resp = 200
      /\ forall key, In key report_keys ->
           exists v, field key (body resp) = Some v
                     /\ (v = JNull ->
                         (key = "indicadores" \/ key = "preguntas")
                         /\ field "analizado_con_ia" (body resp) = Some (JBool true)).
Proof.
  intros str_key tie_up json_loads api_key file nivel w Hname Hnivel Hext Hsize Hstage Htext.
  unfold analizar, procesar. cbn [req_file req_nivel].
  apply String.eqb_neq in Hname, Hnivel, Htext.
  rewrite Hname, Hnivel, Hext, Hstage, Htext. cbn [negb].
  replace (MAX_FILE_SIZE <? file_size file) with false by (symmetry; apply Z.ltb_ge; lia).
  destruct (responder_fields str_key tie_up json_loads api_key file nivel (extracted w) (reply w))
    as [resp [Hr [Hs Hf]]].
  rewrite Hr. exists resp. repeat split; assumption.
Qed.

(** ** Cleaning of the model's answer *)

Lemma replace_from_skip (old new p s : string) :
  PyStr.replace_from old new (String.length p) (p ++ s)
  = PyStr.replace_from old new 0 s.
Proof. induction p as [|c p IH]; simpl; [reflexivity | exact IH]. Qed.

(** A stretch without backticks is copied as it is when the needle starts
    with a backtick. *)
Lemma replace_from_no_backtick (old' new body rest : string) :
  PyStr.count_char backtick body = 0 ->
  PyStr.replace_from (String backtick old') new 0 (body ++ rest)
  = (body ++ PyStr.replace_from (String backtick old') new 0 rest)%string.
Proof.
  induction body as [|c body IH]; intros Hc; [reflexivity|].
  cbn [PyStr.count_char] in Hc.
  assert (0 <= PyStr.count_char backtick body) as Hpos.
  { clear. induction body as [|a b IHb]; cbn [PyStr.count_char]; [lia|].
    destruct (Ascii.eqb a backtick); lia. }
  destruct (Ascii.eqb c backtick) eqn:E; [lia|].
  change ((String c body ++ rest)%string) with (String c (body ++ rest)%string).
  cbn [PyStr.replace_from PyStr.startswith].
  rewrite Ascii.eqb_sym, E. cbn [andb]. rewrite IH by lia. reflexivity.
Qed.

Lemma append_empty_r (s : string) : (s ++ EmptyString)%string = s.
Proof. induction s as [|c s IH]; simpl; [reflexivity | now rewrite IH]. Qed.

(** C6, as the code has it.  A response that does not start with the JSON
    fence marker is trimmed and then unescaped (backslash-n and backslash-t
    become a newline and a tab).  A response that starts with it first loses
    every occurrence of the JSON fence marker and then every triple backtick
    left, wherever they are, and is then trimmed and unescaped; in
    particular a fenced block whose body has no backtick is reduced to its
    trimmed, unescaped body. *)
Theorem limpiar_respuesta_gemini_removes_all_fences :
  forall s : string,
    (PyStr.startswith fence_json s = false ->
     limpiar_respuesta_gemini s = unescape (PyStr.strip s))
    /\ (PyStr.startswith fence_json s = true ->
        limpiar_respuesta_gemini s
        = unescape (PyStr.strip (PyStr.replace fence EmptyString
                                   (PyStr.replace fence_json EmptyString s))))
    /\ (forall body,
          PyStr.count_char backtick body = 0 ->
          s = (fence_json ++ body ++ fence)%string ->
          limpiar_respuesta_gemini s = unescape (PyStr.strip body)).
Proof.
  intros s. unfold limpiar_respuesta_gemini. repeat split.
  - intros H. rewrite H. destruct (String.eqb_spec s EmptyString) as [->|_]; reflexivity.
  - intros H. rewrite H.
    destruct (String.eqb_spec s EmptyString) as [->|_]; [discriminate | reflexivity].
  - intros body Hbody ->.
    change (PyStr.startswith fence_json (fence_json ++ body ++ fence)) with true.
    change ((fence_json ++ body ++ fence =? EmptyString)%string) with false.
    cbv iota. unfold unescape. do 3 f_equal.
    unfold PyStr.replace at 2.
    change (PyStr.replace_from fence_json EmptyString 0 (fence_json ++ body ++ fence))
      with (PyStr.replace_from fence_json EmptyString
              (String.length "``json") ("``json" ++ (body ++ fence))).
    rewrite replace_from_skip.
    unfold fence_json at 1. fold backtick.
    rewrite (replace_from_no_backtick _ _ _ _ Hbody).
    change (PyStr.replace_from (String backtick "``json") EmptyString 0 fence) with fence.
    unfold PyStr.replace, fence at 1. fold backtick.
    rewrite (replace_from_no_backtick _ _ _ _ Hbody).
    change (PyStr.replace_from (String backtick "``") EmptyString 0 fence) with EmptyString.
    apply append_empty_r.
Qed.

Example limpiar_fenced_block :
  limpiar_respuesta_gemini ("```json" ++ LF ++ "{x: 82}" ++ LF ++ "```" ++ LF) = "{x: 82}".
Proof. reflexivity. Qed.

Example limpiar_unescapes_after_trim :
  limpiar_respuesta_gemini "  [a\tb]\n" = ("[a" ++ TAB ++ "b]" ++ LF)%string.
Proof. reflexivity. Qed.

(** ** Concrete runs *)

(** The scenario of the specification: the fenced answer is cleaned, parsed
    and expanded into a report made with the model, 82 / red / Alto. *)
Example analizar_scenario_82 :
  let resp := fst (analizar key0 tie0 loads_82 "clave" peticion_valida mundo_82) in
  status resp = 200
  /\ field "porcentaje" (body resp) = Some (JInt 82)
  /\ field "color" (body resp) = Some (JStr "red")
  /\ field "label" (body resp) = Some (JStr "Alto")
  /\ field "analizado_con_ia" (body resp) = Some (JBool true)
  /\ field "filename" (body resp) = Some (JStr "trabajo.txt").
Proof. vm_compute. repeat split. Qed.

(** The scenario of the specification without a usable key: the scorer
    answers, at least 50, yellow or red. *)
Example analizar_scenario_no_key :
  let resp := fst (analizar key0 tie0 loads_82 "tu_api_key_aqui" peticion_valida mundo_82) in
  status resp = 200
  /\ field "porcentaje" (body resp) = Some (JInt 85)
  /\ field "color" (body resp) = Some (JStr "red")
  /\ field "analizado_con_ia" (body resp) = Some (JBool false)
  /\ field "error_info" (body resp) = Some (JStr "API Key no configurada").
Proof. vm_compute. repeat split. Qed.

(** C1, counterexample.  (1) When no text could be extracted the answer is
    200 but has neither [nivel_educativo] nor the three text statistics.
    (2) When the model's JSON gives null for [indicadores] the answer is 200
    with [indicadores] null. *)
Lemma analizar_report_not_fully_populated :
  (let resp := fst (analizar key0 tie0 loads_null "clave" peticion_valida mundo_sin_texto) in
   status resp = 200
   /\ field "nivel_educativo" (body resp) = None
   /\ field "longitud_texto" (body resp) = None
   /\ field "palabras_unicas" (body resp) = None
   /\ field "densidad_vocabulario" (body resp) = None
   /\ ~ fully_populated (body resp))
  /\ (let resp := fst (analizar key0 tie0 loads_null "clave" peticion_valida mundo_null) in
      status resp = 200
      /\ field "analizado_con_ia" (body resp) = Some (JBool true)
      /\ field "indicadores" (body resp) = Some JNull
      /\ ~ fully_populated (body resp)).
Proof.
  split.
  - repeat split.
    intros H. destruct (H "nivel_educativo") as [v [Hv _]].
    + unfold report_keys. simpl. tauto.
    + vm_compute in Hv. discriminate.
  - repeat split.
    intros H. destruct (H "indicadores") as [v [Hv Hnull]].
    + unfold report_keys. simpl. tauto.
    + vm_compute in Hv. injection Hv as <-. now apply Hnull.
Qed.

(** C1, witness: the valid request on the text of the scenarios, with the
    model succeeding. *)
Lemma analizar_report_fields_witness :
  exists resp,
    analizar key0 tie0 loads_82 "clave" peticion_valida mundo_82
    = (resp, [Staged; Extracted; Analyzed])
    /\ status resp = 200
    /\ forall key, In key report_keys ->
         exists v, field key (body resp) = Some v
                   /\ (v = JNull ->
                       (key = "indicadores" \/ key = "preguntas")
                       /\ field "analizado_con_ia" (body resp) = Some (JBool true)).
Proof.
  apply (analizar_report_fields key0 tie0 loads_82 "clave" trabajo_txt "basica-1-4" mundo_82).
  - discriminate.
  - discriminate.
  - reflexivity.
  - discriminate.
  - reflexivity.
  - discriminate.
Defined.

(** C2, witness: a quota error of the client on a normal text. *)
Lemma analizar_con_gemini_never_raises_witness :
  call_failure (ReplyRaise "429 Quota exceeded")
    = Some "Cuota de API alcanzada - Has excedido el límite de requests"
  /\ exists report ok message,
       analizar_con_gemini key0 tie0 loads_82 "clave" texto_prueba "basica-1-4"
         (ReplyRaise "429 Quota exceeded") = Ok (report, ok, message)
       /\ report = analisis_fallback key0 tie0 texto_prueba "basica-1-4"
       /\ ok = false
       /\ message = "Cuota de API alcanzada - Has excedido el límite de requests".
Proof.
  split; [reflexivity|].
  destruct (analizar_con_gemini_never_raises key0 tie0 loads_82 "clave" texto_prueba
              "basica-1-4" (ReplyRaise "429 Quota exceeded"))
    as [report [ok [message [Hrun [Hfb [Hfail _]]]]]].
  destruct (Hfail _ eq_refl) as [Hok Hmsg].
  exists report, ok, message. repeat split.
  - exact Hrun.
  - exact (Hfb Hok).
  - exact Hok.
  - apply Hmsg; [discriminate | reflexivity].
Defined.

(** C5, witness: the density of the report made with the model in the
    scenario of the specification. *)
Lemma vocabulary_density_rounded_in_range_witness :
  exists report,
    expandir key0 tie0 loads_82 respuesta_82 texto_prueba "basica-1-4"
      = Ok (report, true, "Análisis exitoso con IA")
    /\ field "palabras_unicas" report = Some (JInt (distinct_tokens texto_prueba))
    /\ exists v, field "densidad_vocabulario" report = Some v /\ density_spec texto_prueba v.
Proof.
  destruct (vocabulary_density_rounded_in_range key0 tie0 loads_82 texto_prueba "basica-1-4")
    as [_ H].
  eexists. split; [reflexivity|].
  apply (H respuesta_82 _ true "Análisis exitoso con IA"). reflexivity.
Defined.

(** C6, counterexample: a triple backtick inside the body is removed too,
    which stripping a leading and a trailing marker would keep. *)
Lemma limpiar_removes_interior_fence :
  limpiar_respuesta_gemini respuesta_fence_interior = "{ab}"
  /\ limpiar_spec respuesta_fence_interior = "{a```b}"
  /\ limpiar_respuesta_gemini respuesta_fence_interior
     <> limpiar_spec respuesta_fence_interior.
Proof. repeat split. vm_compute. discriminate. Qed.

(** C6, witness: the fenced block of the scenario, and a bare answer. *)
Lemma limpiar_respuesta_gemini_removes_all_fences_witness :
  limpiar_respuesta_gemini respuesta_82_fenced = respuesta_82
  /\ limpiar_respuesta_gemini "  [a\tb]\n" = unescape (PyStr.strip "  [a\tb]\n").
Proof.
  split.
  - destruct (limpiar_respuesta_gemini_removes_all_fences respuesta_82_fenced)
      as [_ [_ H]].
    apply (H (LF ++ respuesta_82 ++ LF)%string); reflexivity.
  - destruct (limpiar_respuesta_gemini_removes_all_fences "  [a\tb]\n") as [H _].
    apply H. reflexivity.
Defined.

(** C7, witness: a text the parser rejects, and a JSON array. *)
Lemma transformar_falls_back_on_failure_witness :
  transformar_respuesta_gemini key0 tie0 loads_82 "no es json" texto_prueba "superior"
  = Ok (analisis_fallback key0 tie0 texto_prueba "superior", false,
        "Error transformando respuesta: Expecting value: line 1 column 1 (char 0)")
  /\ transformar_respuesta_gemini key0 tie0 (loads_table [("[1, 2]", JArr [JInt 1; JInt 2])])
       "[1, 2]" texto_prueba "superior"
     = Ok (analisis_fallback key0 tie0 texto_prueba "superior", false,
           "Error transformando respuesta: 'list' object has no attribute 'get'").
Proof.
  split.
  - apply (transformar_falls_back_on_failure key0 tie0 loads_82 "no es json"
             texto_prueba "superior"). reflexivity.
  - apply (transformar_falls_back_on_failure key0 tie0
             (loads_table [("[1, 2]", JArr [JInt 1; JInt 2])]) "[1, 2]"
             texto_prueba "superior"). reflexivity.
Defined.

(** C8, witness: a file of 15 MB. *)
Lemma analizar_rejects_invalid_requests_witness :
  let req := {| req_file := Some {| filename := "tesis.pdf"; file_size := 15 * 1024 * 1024 |};
                req_nivel := Some "superior" |} in
  violates req TooLarge
  /\ exists r', violates req r'
       /\ analizar key0 tie0 loads_82 "clave" req mundo_82
          = (error_response 400 (rejection_message r'), []).
Proof.
  intros req.
  assert (violates req TooLarge) as H.
  { exists {| filename := "tesis.pdf"; file_size := 15 * 1024 * 1024 |}.
    split; [reflexivity | reflexivity]. }
  split; [exact H|].
  exact (analizar_rejects_invalid_requests key0 tie0 loads_82 "clave" req mundo_82 TooLarge H).
Defined.

(** The other two rejections of the specification's list. *)
Example analizar_rejects_exe :
  fst (analizar key0 tie0 loads_82 "clave"
         {| req_file := Some {| filename := "virus.EXE"; file_size := 10 |};
            req_nivel := Some "superior" |} mundo_82)
  = error_response 400 "Tipo de archivo no permitido. Use .txt, .docx, .pdf, .jpg, .png".
Proof. reflexivity. Qed.

Example analizar_rejects_missing_nivel :
  fst (analizar key0 tie0 loads_82 "clave"
         {| req_file := Some trabajo_txt; req_nivel := None |} mundo_82)
  = error_response 400 "Por favor selecciona un nivel educativo".
Proof. reflexivity. Qed.

(** C9, witness: two processes with different set orders, same input. *)
Lemma analisis_fallback_deterministic_witness :
  analisis_fallback key0 tie0 texto_prueba "basica-1-4"
  = analisis_fallback PyStr.len tie0 texto_prueba "basica-1-4".
Proof.
  apply (analisis_fallback_deterministic key0 PyStr.len tie0); reflexivity.
Defined.


(** * Properties of the rest of the module *)

(** ** Diagnosis of the client's errors *)

(** The diagnosis is one of eight fixed sentences, or the unknown-error
    sentence followed by the message. *)
Lemma diagnosticar_cases (error : string) :
  In (diagnosticar_error_gemini error)
     [ "Cuota de API alcanzada - Has excedido el límite de requests";
       "API Key inválida - Verifica tu clave de Google AI";
       "No autorizado - API Key incorrecta o expirada";
       "Error de conexión - Problema de red o internet";
       "Timeout - La request tardó demasiado en responder";
       "Error de formato JSON - Respuesta malformada de Gemini";
       "Modelo no disponible - Error con el modelo de IA" ]
  \/ diagnosticar_error_gemini error = ("Error desconocido: " ++ error)%string.
Proof.
  unfold diagnosticar_error_gemini.
  destruct (PyStr.contains "limit" (PyStr.lower error)).
  - rewrite orb_true_r. left. simpl. tauto.
  - rewrite orb_false_r, andb_false_r.
    repeat match goal with
           | |- context [if ?c then _ else _] => destruct c
           end;
      try (left; simpl; tauto).
    now right.
Qed.

(** X1. The rate-limit diagnosis is never given: a message that mentions
    a limit, in any letter case, is diagnosed as an exhausted quota by the
    first test, so the fourth test never succeeds. *)
Theorem diagnosticar_never_rate_limit :
  forall error : string,
    diagnosticar_error_gemini error
      <> "Límite de velocidad alcanzado - Demasiadas requests por minuto"
    /\ (PyStr.contains "limit" (PyStr.lower error) = true ->
        diagnosticar_error_gemini error
        = "Cuota de API alcanzada - Has excedido el límite de requests").
Proof.
  intros error. split.
  - destruct (diagnosticar_cases error) as [H|H].
    + simpl in H. intros E. rewrite E in H.
      repeat (destruct H as [H|H]; [discriminate|]). contradiction.
    + rewrite H. discriminate.
  - intros H. unfold diagnosticar_error_gemini. rewrite H, orb_true_r. reflexivity.
Qed.

(** ** The orchestrator *)

Section OrchestratorFacts.

Variable str_key : string -> Z.
Variable tie_up : Z -> Z -> bool.
Variable json_loads : string -> result json.
Variable api_key : string.

(** Every way the orchestrator ends, with its message. *)
Lemma orchestrator_outcomes (texto nivel : string) (r : gemini_reply) :
  let run := analizar_con_gemini str_key tie_up json_loads api_key texto nivel r in
  let scorer := analisis_fallback str_key tie_up texto nivel in
  (PyStr.strip texto = EmptyString /\ run = Ok (scorer, false, "Texto vacío"))
  \/ (PyStr.strip texto <> EmptyString
      /\ ((exists m,
              In m [ "API Key no configurada"; "Gemini devolvió respuesta vacía";
                     "Respuesta de Gemini no tiene texto" ]
              /\ run = Ok (scorer, false, m))
          \/ (exists e, run = Ok (scorer, false, diagnosticar_error_gemini e))
          \/ (exists e,
                run = Ok (scorer, false, ("Error transformando respuesta: " ++ e)%string))
          \/ (exists respuesta report,
                expandir str_key tie_up json_loads respuesta texto nivel
                  = Ok (report, true, "Análisis exitoso con IA")
                /\ run = Ok (report, true, "Análisis exitoso con IA")))).
Proof.
  intros run scorer. subst run scorer. unfold analizar_con_gemini.
  destruct (String.eqb_spec (PyStr.strip texto) EmptyString) as [Hb|Hb];
    [left; now split | right; split; [assumption|]].
  destruct (String.eqb api_key EmptyString || String.eqb api_key "tu_api_key_aqui").
  { left. eexists. split; [|reflexivity]. simpl. tauto. }
  destruct r as [e| | |[s|]]; cbn [try_except].
  - right. left. now exists e.
  - left. eexists. split; [|reflexivity]. simpl. tauto.
  - left. eexists. split; [|reflexivity]. simpl. tauto.
  - destruct (String.eqb s EmptyString || String.eqb (PyStr.strip s) EmptyString).
    { left. eexists. split; [|reflexivity]. simpl. tauto. }
    destruct (transformar_cases str_key tie_up json_loads
                (limpiar_respuesta_gemini s) texto nivel)
      as [[report [He Ht]] | [e [F Ht]]]; rewrite Ht.
    + right. right. right. exists (limpiar_respuesta_gemini s), report. now split.
    + right. right. left. now exists e.
  - left. eexists. split; [|reflexivity]. simpl. tauto.
Qed.

End OrchestratorFacts.

(** X2. Whatever the text, the key, the parser and the reply, the message
    the orchestrator returns is never empty, and it is the success sentence
    exactly when the flag is true. *)
Theorem analizar_con_gemini_message :
  forall (str_key : string -> Z) (tie_up : Z -> Z -> bool)
         (json_loads : string -> result json) (api_key texto nivel_educativo : string)
         (r : gemini_reply),
    exists (report : json) (ok : bool) (message : string),
      analizar_con_gemini str_key tie_up json_loads api_key texto nivel_educativo r
        = Ok (report, ok, message)
      /\ message <> EmptyString
      /\ (ok = true <-> message = "Análisis exitoso con IA").
Proof.
  intros str_key tie_up json_loads api_key texto nivel r.
  destruct (orchestrator_outcomes str_key tie_up json_loads api_key texto nivel r)
    as [[_ H] | [_ [[m [Hm H]] | [[e H] | [[e H] | [respuesta [report [_ H]]]]]]]];
    cbv zeta in H; rewrite H; eexists _, _, _; (split; [reflexivity|]).
  - split; [discriminate|]. split; discriminate.
  - simpl in Hm. destruct Hm as [<-|[<-|[<-|[]]]]; (split; [discriminate|]);
      split; discriminate.
  - destruct (diagnosticar_cases e) as [Hd|Hd].
    + simpl in Hd.
      repeat (destruct Hd as [<-|Hd];
              [split; [discriminate | split; discriminate]|]).
      contradiction.
    + rewrite Hd. split; [discriminate|]. split; discriminate.
  - split; [discriminate|]. split; discriminate.
  - split; [discriminate|]. split; reflexivity.
Qed.

(** X3. The flag the orchestrator returns beside the report is always the
    report's own [analizado_con_ia]. *)
Theorem analizar_con_gemini_flag_in_report :
  forall (str_key : string -> Z) (tie_up : Z -> Z -> bool)
         (json_loads : string -> result json) (api_key texto nivel_educativo : string)
         (r : gemini_reply),
    exists (report : json) (ok : bool) (message : string),
      analizar_con_gemini str_key tie_up json_loads api_key texto nivel_educativo r
        = Ok (report, ok, message)
      /\ field "analizado_con_ia" report = Some (JBool ok).
Proof.
  intros str_key tie_up json_loads api_key texto nivel r.
  destruct (orchestrator_cases str_key tie_up json_loads api_key texto nivel r)
    as [[message H] | [respuesta [report [He H]]]]; rewrite H.
  - eexists _, _, _. split; [reflexivity|]. now rewrite analisis_fallback_report.
  - eexists _, _, _. split; [reflexivity|].
    apply expandir_ok in He. destruct He as [fields [color [label [_ [_ He]]]]].
    injection He as ->. reflexivity.
Qed.

(** X4. The model's reply and the parser have no say in five fields of
    the report: [filename], [nivel_educativo], [longitud_texto],
    [palabras_unicas] and [densidad_vocabulario] are always those the scorer
    computes from the text and the level. *)
Theorem analizar_con_gemini_text_fields :
  forall (str_key : string -> Z) (tie_up : Z -> Z -> bool)
         (json_loads : string -> result json) (api_key texto nivel_educativo : string)
         (r : gemini_reply),
    exists (report : json) (ok : bool) (message : string),
      analizar_con_gemini str_key tie_up json_loads api_key texto nivel_educativo r
        = Ok (report, ok, message)
      /\ forall key,
           In key [ "filename"; "nivel_educativo"; "longitud_texto";
                    "palabras_unicas"; "densidad_vocabulario" ] ->
           field key report
           = field key (analisis_fallback str_key tie_up texto nivel_educativo).
Proof.
  intros str_key tie_up json_loads api_key texto nivel r.
  destruct (orchestrator_cases str_key tie_up json_loads api_key texto nivel r)
    as [[message H] | [respuesta [report [He H]]]]; rewrite H.
  - eexists _, _, _. split; [reflexivity|]. reflexivity.
  - eexists _, _, _. split; [reflexivity|].
    apply expandir_ok in He. destruct He as [fields [color [label [_ [_ He]]]]].
    injection He as ->. rewrite analisis_fallback_report.
    intros key Hin. simpl in Hin.
    repeat (destruct Hin as [<-|Hin]; [reflexivity|]). contradiction.
Qed.

(** ** The normalizer on objects without the expected keys and on
       percentages outside 0..100 *)

(** X5. An object without a [porcentaje] is expanded as if the model had
    answered 50: the report is made with the model, 50, yellow, Medio; a
    missing [indicadores] or [preguntas] becomes the empty list. *)
Theorem transformar_defaults_for_missing_keys :
  forall (str_key : string -> Z) (tie_up : Z -> Z -> bool)
         (json_loads : string -> result json) (respuesta texto nivel_educativo : string)
         (fields : list (string * json)),
    json_loads respuesta = Ok (JObj fields) ->
    Py.lookup "porcentaje" fields = None ->
    exists report,
      transformar_respuesta_gemini str_key tie_up json_loads
        respuesta texto nivel_educativo
      = Ok (report, true, "Análisis exitoso con IA")
      /\ field "porcentaje" report = Some (JInt 50)
      /\ field "color" report = Some (JStr "yellow")
      /\ field "label" report = Some (JStr "Medio")
      /\ (Py.lookup "indicadores" fields = None ->
          field "indicadores" report = Some (JArr []))
      /\ (Py.lookup "preguntas" fields = None ->
          field "preguntas" report = Some (JArr [])).
Proof.
  intros str_key tie_up json_loads respuesta texto nivel fields Hload Hp.
  assert (Py.dict_get fields "porcentaje" (JInt 50) = JInt 50) as Hd
    by (unfold Py.dict_get; now rewrite Hp).
  unfold transformar_respuesta_gemini, expandir. rewrite Hload.
  cbn [bind Py.get]. rewrite !Hd.
  cbn [color_y_label Py.lt bind Py.num_lt JInt Z.ltb Z.compare Pos.compare
       Pos.compare_cont try_except].
  eexists. split; [reflexivity|].
  cbn [field Py.lookup String.eqb Ascii.eqb Bool.eqb].
  do 3 (split; [reflexivity|]). split.
  - intros Hi. unfold Py.dict_get. now rewrite Hi.
  - intros Hq. unfold Py.dict_get. now rewrite Hq.
Qed.

(** X5, witness: the empty object. *)
Lemma transformar_defaults_for_missing_keys_witness :
  exists report,
    transformar_respuesta_gemini key0 tie0 (loads_table [("{}", JObj [])])
      "{}" texto_prueba "superior"
    = Ok (report, true, "Análisis exitoso con IA")
    /\ field "porcentaje" report = Some (JInt 50)
    /\ field "color" report = Some (JStr "yellow")
    /\ field "label" report = Some (JStr "Medio")
    /\ (Py.lookup "indicadores" [] = None -> field "indicadores" report = Some (JArr []))
    /\ (Py.lookup "preguntas" [] = None -> field "preguntas" report = Some (JArr [])).
Proof.
  apply (transformar_defaults_for_missing_keys key0 tie0 (loads_table [("{}", JObj [])])
           "{}" texto_prueba "superior" []); reflexivity.
Defined.

(** X6. An integer percentage of the model is reported as it is, never
    clamped to 0..100, and the tier follows the two thresholds over all
    integers: below 50 (negative numbers too) green/Bajo, from 75 on (above
    100 too) red/Alto. *)
Theorem transformar_keeps_integer_percentage :
  forall (str_key : string -> Z) (tie_up : Z -> Z -> bool)
         (json_loads : string -> result json) (respuesta texto nivel_educativo : string)
         (fields : list (string * json)) (p : Z),
    json_loads respuesta = Ok (JObj fields) ->
    Py.lookup "porcentaje" fields = Some (JInt p) ->
    exists report,
      transformar_respuesta_gemini str_key tie_up json_loads
        respuesta texto nivel_educativo
      = Ok (report, true, "Análisis exitoso con IA")
      /\ field "porcentaje" report = Some (JInt p)
      /\ field "color" report
         = Some (JStr (if p <? 50 then "green" else if p <? 75 then "yellow" else "red"))
      /\ field "label" report
         = Some (JStr (if p <? 50 then "Bajo" else if p <? 75 then "Medio" else "Alto")).
Proof.
  intros str_key tie_up json_loads respuesta texto nivel fields p Hload Hp.
  assert (Py.dict_get fields "porcentaje" (JInt 50) = JInt p) as Hd
    by (unfold Py.dict_get; now rewrite Hp).
  unfold transformar_respuesta_gemini, expandir. rewrite Hload.
  cbn [bind Py.get]. rewrite !Hd.
  unfold color_y_label. cbn [Py.lt bind Py.num_lt JInt].
  destruct (p <? 50); cbn [bind try_except].
  - eexists. split; [reflexivity|]. repeat split.
  - destruct (p <? 75); cbn [bind try_except];
      eexists; (split; [reflexivity|]); repeat split.
Qed.

(** X6, witness: a percentage of 150. *)
Lemma transformar_keeps_integer_percentage_witness :
  exists report,
    transformar_respuesta_gemini key0 tie0
      (loads_table [(respuesta_150, JObj [("porcentaje", JInt 150)])])
      respuesta_150 texto_prueba "superior"
    = Ok (report, true, "Análisis exitoso con IA")
    /\ field "porcentaje" report = Some (JInt 150)
    /\ field "color" report = Some (JStr "red")
    /\ field "label" report = Some (JStr "Alto").
Proof.
  apply (transformar_keeps_integer_percentage key0 tie0
           (loads_table [(respuesta_150, JObj [("porcentaje", JInt 150)])])
           respuesta_150 texto_prueba "superior" [("porcentaje", JInt 150)] 150);
    reflexivity.
Defined.

(** ** The scorer on a text without tokens *)

Lemma lstrip_cases (s : string) :
  (all_space s = true /\ PyStr.lstrip s = EmptyString)
  \/ (exists c r, PyStr.lstrip s = String c r /\ PyStr.is_space c = false).
Proof.
  induction s as [|c s IH]; [left; now split|].
  cbn [all_space PyStr.lstrip]. destruct (PyStr.is_space c) eqn:E.
  - exact IH.
  - right. now exists c, s.
Qed.

Lemma rstrip_keeps_head (c : ascii) (r : string) :
  PyStr.is_space c = false -> exists r', PyStr.rstrip (String c r) = String c r'.
Proof.
  intros E. cbn [PyStr.rstrip]. rewrite E.
  destruct (PyStr.rstrip r); eexists; reflexivity.
Qed.

Lemma strip_empty_all_space (s : string) :
  PyStr.strip s = EmptyString -> all_space s = true.
Proof.
  unfold PyStr.strip. intros H.
  destruct (lstrip_cases s) as [[Ha _] | [c [r [Hl Hc]]]]; [assumption|].
  rewrite Hl in H. destruct (rstrip_keeps_head c r Hc) as [r' Hr]. congruence.
Qed.

Lemma all_space_no_token (s : string) :
  all_space s = true -> PyStr.split s = [].
Proof.
  unfold PyStr.split. induction s as [|c s IH]; [reflexivity|].
  cbn [all_space PyStr.split_from]. intros H. apply andb_true_iff in H.
  destruct H as [Hc Hs]. rewrite Hc. now apply IH.
Qed.

Lemma all_space_no_period (s : string) :
  all_space s = true -> PyStr.count_char "."%char s = 0.
Proof.
  induction s as [|c s IH]; [reflexivity|].
  cbn [all_space PyStr.count_char]. intros H. apply andb_true_iff in H.
  destruct H as [Hc Hs]. rewrite (IH Hs).
  destruct (Ascii.eqb_spec c "."%char) as [->|_]; [discriminate | reflexivity].
Qed.

(** X7. A text that is empty or all whitespace is always rated High by
    the scorer: 100 when it is shorter than 100 characters, 80 otherwise,
    red, Alto, with no unique word and density 0. *)
Theorem analisis_fallback_blank_text :
  forall (str_key : string -> Z) (tie_up : Z -> Z -> bool) (texto nivel_educativo : string),
    PyStr.strip texto = EmptyString ->
    let report := analisis_fallback str_key tie_up texto nivel_educativo in
    field "porcentaje" report = Some (JInt (if PyStr.len texto <? 100 then 100 else 80))
    /\ field "color" report = Some (JStr "red")
    /\ field "label" report = Some (JStr "Alto")
    /\ field "palabras_unicas" report = Some (JInt 0)
    /\ field "densidad_vocabulario" report = Some (JInt 0).
Proof.
  intros str_key tie_up texto nivel Hblank report. subst report.
  apply strip_empty_all_space in Hblank.
  pose proof (all_space_no_token _ Hblank) as Htok.
  pose proof (all_space_no_period _ Hblank) as Hper.
  rewrite analisis_fallback_report.
  unfold raw_score, density_of, short_text, few_periods, limited_vocabulary,
    high_repetition, total_tokens, distinct_tokens.
  rewrite Htok, Hper. cbn [nodup len_list List.length Z.of_nat].
  cbn [field Py.lookup String.eqb Ascii.eqb Bool.eqb].
  destruct (PyStr.len texto <? 100); repeat split.
Qed.

(** X7, witness: three spaces. *)
Lemma analisis_fallback_blank_text_witness :
  let report := analisis_fallback key0 tie0 "   " "superior" in
  field "porcentaje" report = Some (JInt 100)
  /\ field "color" report = Some (JStr "red")
  /\ field "label" report = Some (JStr "Alto")
  /\ field "palabras_unicas" report = Some (JInt 0)
  /\ field "densidad_vocabulario" report = Some (JInt 0).
Proof.
  apply (analisis_fallback_blank_text key0 tie0 "   " "superior"). reflexivity.
Defined.

(** ** Suffixes, case and trimming *)

Lemma length_app (a b : string) :
  String.length (a ++ b) = (String.length a + String.length b)%nat.
Proof. induction a as [|c a IH]; simpl; [reflexivity | now rewrite IH]. Qed.

Lemma lower_app (a b : string) :
  PyStr.lower (a ++ b) = (PyStr.lower a ++ PyStr.lower b)%string.
Proof. induction a as [|c a IH]; simpl; [reflexivity | now rewrite IH]. Qed.

(** A lower-cased string splits where its original does. *)
Lemma lower_split (s q x : string) :
  PyStr.lower s = (q ++ x)%string ->
  exists p e, s = (p ++ e)%string /\ PyStr.lower p = q /\ PyStr.lower e = x.
Proof.
  revert s. induction q as [|c q IH]; intros s H.
  - exists EmptyString, s. now repeat split.
  - destruct s as [|a s]; [discriminate|].
    cbn [PyStr.lower append] in H. injection H as Hc Hs.
    destruct (IH s Hs) as [p [e [-> [Hp He]]]].
    exists (String a p), e. cbn [PyStr.lower append]. now rewrite Hc, Hp.
Qed.

Lemma endswith_app (suf p : string) : PyStr.endswith suf (p ++ suf) = true.
Proof.
  induction p as [|c p IH].
  - destruct suf; cbn [append PyStr.endswith]; now rewrite String.eqb_refl.
  - cbn [append PyStr.endswith]. rewrite IH. apply orb_true_r.
Qed.

Lemma endswith_split (suf s : string) :
  PyStr.endswith suf s = true -> exists p, s = (p ++ suf)%string.
Proof.
  induction s as [|c s IH]; cbn [PyStr.endswith]; intros H.
  - rewrite orb_false_r in H. apply String.eqb_eq in H. subst. now exists EmptyString.
  - apply orb_true_iff in H. destruct H as [H|H].
    + apply String.eqb_eq in H. subst. now exists EmptyString.
    + destruct (IH H) as [p ->]. now exists (String c p).
Qed.

(** Of two suffixes of one string, the shorter is a suffix of the longer. *)
Lemma suffix_of_suffix (p1 a p2 b : string) :
  (p1 ++ a)%string = (p2 ++ b)%string ->
  (String.length b <= String.length a)%nat ->
  PyStr.endswith b a = true.
Proof.
  revert p2. induction p1 as [|c p1 IH]; intros p2 H Hlen.
  - cbn [append] in H. subst. apply endswith_app.
  - destruct p2 as [|c2 p2].
    + cbn [append] in H. subst b. cbn [String.length] in Hlen.
      rewrite length_app in Hlen. lia.
    + cbn [append] in H. injection H as _ H. now apply (IH p2).
Qed.

Lemma suffixes_nest (a b s : string) :
  PyStr.endswith a s = true -> PyStr.endswith b s = true ->
  PyStr.endswith b a = true \/ PyStr.endswith a b = true.
Proof.
  intros Ha Hb.
  destruct (endswith_split _ _ Ha) as [p1 H1], (endswith_split _ _ Hb) as [p2 H2].
  destruct (Nat.le_gt_cases (String.length b) (String.length a)).
  - left. apply (suffix_of_suffix p1 a p2 b); congruence.
  - right. apply (suffix_of_suffix p2 b p1 a); [congruence | lia].
Qed.

Lemma rstrip_idempotent (s : string) : PyStr.rstrip (PyStr.rstrip s) = PyStr.rstrip s.
Proof.
  induction s as [|c s IH]; [reflexivity|].
  cbn [PyStr.rstrip]. destruct (PyStr.rstrip s) as [|a r] eqn:E.
  - destruct (PyStr.is_space c) eqn:Ec; [reflexivity|].
    cbn [PyStr.rstrip]. now rewrite Ec.
  - change (PyStr.rstrip (String c (String a r))) with
      (match PyStr.rstrip (String a r) with
       | EmptyString => if PyStr.is_space c then EmptyString else String c EmptyString
       | String a' r' => String c (String a' r')
       end).
    now rewrite IH.
Qed.

(** [strip] applied twice is [strip]. *)
Lemma strip_idempotent (s : string) : PyStr.strip (PyStr.strip s) = PyStr.strip s.
Proof.
  unfold PyStr.strip.
  destruct (lstrip_cases s) as [[_ ->] | [c [r [-> Hc]]]]; [reflexivity|].
  destruct (rstrip_keeps_head c r Hc) as [r' Hr]. rewrite Hr.
  cbn [PyStr.lstrip]. rewrite Hc, <- Hr. apply rstrip_idempotent.
Qed.

(** ** Text extraction *)

(** The three document suffixes and the image suffixes exclude each other
    pairwise where the dispatch of [extraer_texto] needs it. *)
Lemma pdf_is_not_txt_or_docx (s : string) :
  PyStr.endswith ".pdf" s = true ->
  PyStr.endswith ".txt" s = false /\ PyStr.endswith ".docx" s = false.
Proof.
  intros H. split.
  - destruct (PyStr.endswith ".txt" s) eqn:E; [|reflexivity].
    destruct (suffixes_nest _ _ _ H E) as [C|C]; vm_compute in C; discriminate.
  - destruct (PyStr.endswith ".docx" s) eqn:E; [|reflexivity].
    destruct (suffixes_nest _ _ _ H E) as [C|C]; vm_compute in C; discriminate.
Qed.

Lemma image_is_not_a_document (s : string) :
  existsb (fun ext => PyStr.endswith ext s) IMAGE_EXTENSIONS = true ->
  PyStr.endswith ".txt" s = false /\ PyStr.endswith ".docx" s = false
  /\ PyStr.endswith ".pdf" s = false.
Proof.
  intros H. apply existsb_exists in H. destruct H as [ext [Hin Hext]].
  assert (forall doc, In doc [".txt"; ".docx"; ".pdf"] -> PyStr.endswith doc s = false) as K.
  { intros doc Hdoc. destruct (PyStr.endswith doc s) eqn:E; [|reflexivity].
    destruct (suffixes_nest _ _ _ Hext E) as [C|C];
      simpl in Hin, Hdoc;
      repeat (destruct Hin as [<-|Hin]; [|]);
      try contradiction;
      repeat (destruct Hdoc as [<-|Hdoc]; [|]);
      try contradiction; vm_compute in C; discriminate. }
  repeat split; apply K; simpl; tauto.
Qed.

(** X8. The extracted text never begins or ends with whitespace: trimming
    it again changes nothing, for every path and whatever the readers find
    or raise. *)
Theorem extraer_texto_is_trimmed :
  forall (d : disco) (file_path : string),
    PyStr.strip (extraer_texto d file_path) = extraer_texto d file_path.
Proof.
  intros d file_path. unfold extraer_texto, leer_archivo.
  match goal with
  | |- context [bind ?c _] => destruct c as [texto|e]
  end; cbn [bind]; [apply strip_idempotent | reflexivity].
Qed.

(** X9. Called on a path with an image suffix, in any letter case,
    [extraer_texto] returns the fixed sentence that OCR is not available,
    whatever the disk holds at that path, and so never the empty string.
    (The path is the one the function receives; how the handler names the
    temporary file is not part of this statement.) *)
Theorem extraer_texto_image_placeholder :
  forall (d : disco) (file_path : string),
    existsb (fun ext => PyStr.endswith ext (PyStr.lower file_path)) IMAGE_EXTENSIONS = true ->
    extraer_texto d file_path
    = "OCR no disponible - Instala opencv-python y pytesseract para procesar imágenes"
    /\ extraer_texto d file_path <> EmptyString.
Proof.
  intros d file_path H.
  assert (extraer_texto d file_path
          = "OCR no disponible - Instala opencv-python y pytesseract para procesar imágenes")
    as E.
  { unfold extraer_texto, leer_archivo.
    destruct (image_is_not_a_document _ H) as [H1 [H2 H3]].
    rewrite H1, H2, H3, H. reflexivity. }
  split; [exact E | rewrite E; discriminate].
Qed.

(** X9, witness: a PNG on a disk whose readers all raise. *)
Lemma extraer_texto_image_placeholder_witness :
  extraer_texto disco_roto "/tmp/tmpk3v_9a2b.PNG"
  = "OCR no disponible - Instala opencv-python y pytesseract para procesar imágenes"
  /\ extraer_texto disco_roto "/tmp/tmpk3v_9a2b.PNG" <> EmptyString.
Proof.
  apply (extraer_texto_image_placeholder disco_roto "/tmp/tmpk3v_9a2b.PNG"). reflexivity.
Defined.

Lemma leer_paginas_texts (texts : list string) (acc : string) :
  leer_paginas (map (fun t => Ok (Some t)) texts) acc
  = Ok (acc ++ String.concat EmptyString (map (fun t => t ++ LF)%string texts))%string.
Proof.
  revert acc. induction texts as [|t texts IH]; intros acc.
  - cbn [map leer_paginas String.concat]. now rewrite append_empty_r.
  - cbn [map leer_paginas bind]. rewrite IH. f_equal.
    destruct texts as [|t' texts].
    + cbn [map String.concat]. now rewrite append_empty_r.
    + cbn [map String.concat append].
      clear. induction acc as [|c acc IHa]; cbn [append]; [reflexivity | now rewrite IHa].
Qed.

Lemma leer_paginas_unreadable (pages : list (result (option string))) (acc : string)
    (page : result (option string)) :
  In page pages -> (forall t, page <> Ok (Some t)) ->
  exists e, leer_paginas pages acc = Raise e.
Proof.
  revert acc. induction pages as [|pg pages IH]; intros acc Hin Hbad; [contradiction|].
  cbn [leer_paginas]. destruct Hin as [->|Hin].
  - destruct page as [[t|]|e]; cbn [bind].
    + now elim (Hbad t).
    + eexists; reflexivity.
    + eexists; reflexivity.
  - destruct pg as [[t|]|e]; cbn [bind].
    + now apply IH.
    + eexists; reflexivity.
    + eexists; reflexivity.
Qed.

(** X10. For a PDF, the extracted text is the texts of the pages, each
    followed by a newline, concatenated and trimmed, when every page has
    text; one page without text ([None]) or whose extraction raises makes
    the whole document come out empty, whatever the other pages hold. *)
Theorem extraer_texto_pdf_pages :
  forall (d : disco) (file_path : string) (pages : list (result (option string))),
    PyStr.endswith ".pdf" (PyStr.lower file_path) = true ->
    pdf_pages d file_path = Ok pages ->
    (forall texts,
        pages = map (fun t => Ok (Some t)) texts ->
        extraer_texto d file_path
        = PyStr.strip (String.concat EmptyString (map (fun t => t ++ LF)%string texts)))
    /\ (forall page,
          In page pages -> (forall t, page <> Ok (Some t)) ->
          extraer_texto d file_path = EmptyString).
Proof.
  intros d file_path pages Hpdf Hpages.
  destruct (pdf_is_not_txt_or_docx _ Hpdf) as [H1 H2].
  unfold extraer_texto, leer_archivo. rewrite H1, H2, Hpdf, Hpages. cbn [bind]. split.
  - intros texts ->. rewrite leer_paginas_texts. reflexivity.
  - intros page Hin Hbad.
    destruct (leer_paginas_unreadable pages EmptyString page Hin Hbad) as [e ->].
    reflexivity.
Qed.

(** X10, witness: three pages, the second without text. *)
Lemma extraer_texto_pdf_pages_witness :
  let d := {| open_txt := fun _ => Ok EmptyString;
              docx_paragraphs := fun _ => Ok [];
              pdf_pages := fun _ => Ok [Ok (Some "Uno."); Ok None; Ok (Some "Tres.")] |} in
  extraer_texto d "/tmp/tmpab12cd34.pdf" = EmptyString.
Proof.
  intros d.
  destruct (extraer_texto_pdf_pages d "/tmp/tmpab12cd34.pdf"
              [Ok (Some "Uno."); Ok None; Ok (Some "Tres.")] eq_refl eq_refl) as [_ H].
  apply (H (Ok None)).
  - simpl. tauto.
  - discriminate.
Defined.

(** X11. The allow-list and the extractor agree: a path can yield text
    (on some disk) exactly when [allowed_file] accepts it.  On a path the
    allow-list rejects the extractor reads nothing and returns the empty
    string. *)
Theorem extraer_texto_reads_allowed_paths_only :
  forall file_path : string,
    (allowed_file file_path = true <-> exists d, extraer_texto d file_path <> EmptyString)
    /\ (allowed_file file_path = false ->
        forall d, extraer_texto d file_path = EmptyString).
Proof.
  intros file_path.
  assert (allowed_file file_path = false ->
          forall d, extraer_texto d file_path = EmptyString) as Hrej.
  { unfold allowed_file, ALLOWED_EXTENSIONS. cbn [existsb]. intros H d.
    repeat (apply orb_false_elim in H; destruct H as [? H]).
    unfold extraer_texto, leer_archivo, IMAGE_EXTENSIONS. cbn [existsb].
    repeat match goal with E : PyStr.endswith _ _ = false |- _ => rewrite E; clear E end.
    reflexivity. }
  split; [|exact Hrej]. split.
  - intros H. exists disco_x.
    unfold allowed_file, ALLOWED_EXTENSIONS in H. cbn [existsb] in H.
    unfold extraer_texto, leer_archivo.
    destruct (PyStr.endswith ".txt" (PyStr.lower file_path)); [discriminate|].
    destruct (PyStr.endswith ".docx" (PyStr.lower file_path)); [discriminate|].
    destruct (PyStr.endswith ".pdf" (PyStr.lower file_path)); [discriminate|].
    cbn [orb] in H. unfold IMAGE_EXTENSIONS. cbn [existsb]. rewrite H. discriminate.
  - intros [d Hd]. destruct (allowed_file file_path); [reflexivity|].
    elim Hd. now apply Hrej.
Qed.

(** X12. [allowed_file] accepts exactly the names that end with one of the
    eight extensions written in any letter case; what precedes the
    extension is free, and may be empty. *)
Theorem allowed_file_iff_extension :
  forall name : string,
    allowed_file name = true
    <-> exists base ext,
          name = (base ++ ext)%string /\ In (PyStr.lower ext) ALLOWED_EXTENSIONS.
Proof.
  intros name. unfold allowed_file. rewrite existsb_exists. split.
  - intros [x [Hin Hend]].
    destruct (endswith_split _ _ Hend) as [q Hq].
    destruct (lower_split _ _ _ Hq) as [base [ext [-> [_ He]]]].
    exists base, ext. split; [reflexivity | now rewrite He].
  - intros [base [ext [-> Hin]]]. exists (PyStr.lower ext). split; [assumption|].
    rewrite lower_app. apply endswith_app.
Qed.

(** ** The handler as a whole *)

Section AnalizarFacts.

Variable str_key : string -> Z.
Variable tie_up : Z -> Z -> bool.
Variable json_loads : string -> result json.
Variable api_key : string.

(** The answer is the orchestrator's report with the upload's name in
    [filename] and the orchestrator's message in [error_info]. *)
Lemma responder_reshapes (file : upload) (nivel texto : string) (r : gemini_reply) :
  exists report ok message resp,
    analizar_con_gemini str_key tie_up json_loads api_key texto nivel r
      = Ok (report, ok, message)
    /\ responder str_key tie_up json_loads api_key file nivel texto r = Ok resp
    /\ status resp = 200
    /\ (forall key, In key report_keys -> key <> "filename" -> key <> "error_info" ->
                    field key (body resp) = field key report)
    /\ field "filename" (body resp) = Some (JStr (filename file))
    /\ field "error_info" (body resp) = Some (JStr message).
Proof.
  unfold responder.
  destruct (orchestrator_cases str_key tie_up json_loads api_key texto nivel r)
    as [[message H] | [respuesta [report [He H]]]]; rewrite H; cbn [bind].
  - rewrite analisis_fallback_report.
    cbn [Py.get Py.dict_get Py.lookup String.eqb Ascii.eqb Bool.eqb bind Py.capitalize].
    eexists _, _, _, _. split; [reflexivity|]. split; [reflexivity|].
    split; [reflexivity|]. split; [|split; reflexivity].
    intros key Hin Hf He. cbn [body field Py.lookup]. unfold report_keys in Hin.
    cbn [In] in Hin.
    repeat (destruct Hin as [<-|Hin];
            [cbn [String.eqb Ascii.eqb Bool.eqb]; try reflexivity; try congruence|]);
      try contradiction.
    destruct (raw_score texto <? 50); [reflexivity|].
    destruct (raw_score texto <? 75); reflexivity.
  - apply expandir_ok in He.
    destruct He as [fields [color [label [_ [Ht He]]]]]. injection He as ->.
    cbn [Py.get Py.dict_get Py.lookup String.eqb Ascii.eqb Bool.eqb bind Py.capitalize].
    eexists _, _, _, _. split; [reflexivity|]. split; [reflexivity|].
    split; [reflexivity|]. split; [|split; reflexivity].
    intros key Hin Hf He. cbn [body field Py.lookup]. unfold report_keys in Hin.
    cbn [In] in Hin.
    repeat (destruct Hin as [<-|Hin];
            [cbn [String.eqb Ascii.eqb Bool.eqb]; try reflexivity; try congruence|]);
      try contradiction.
    apply color_y_label_ok in Ht.
    destruct Ht as [[_ [_ ->]] | [[_ [_ [_ ->]]] | [_ [_ [_ ->]]]]]; reflexivity.
Qed.

(** The four ways the handler ends. *)
Lemma analizar_cases (req : request) (w : world) :
  let run := analizar str_key tie_up json_loads api_key req w in
  (~ valid_request req /\ exists m, run = (error_response 400 m, []))
  \/ (valid_request req
      /\ exists e,
           staging w = Raise e
           /\ run = (error_response 500 ("Error procesando archivo: " ++ e)%string,
                     [Staged]))
  \/ (valid_request req /\ (exists u, staging w = Ok u) /\ extracted w = EmptyString
      /\ exists file,
           req_file req = Some file
           /\ run = ({| status := 200; body := no_detectado file |}, [Staged; Extracted]))
  \/ (valid_request req /\ (exists u, staging w = Ok u) /\ extracted w <> EmptyString
      /\ exists file nivel resp,
           req_file req = Some file /\ req_nivel req = Some nivel
           /\ responder str_key tie_up json_loads api_key file nivel
                (extracted w) (reply w) = Ok resp
           /\ run = (resp, [Staged; Extracted; Analyzed])).
Proof.
  intros run. subst run. destruct req as [file nivel]. unfold analizar, valid_request.
  cbn [req_file req_nivel].
  destruct file as [file|].
  2:{ left. split; [|eexists; reflexivity].
      intros [f [n [H _]]]. discriminate. }
  destruct (String.eqb_spec (filename file) EmptyString) as [Hname|Hname].
  { left. split; [|eexists; reflexivity].
    intros [f [n [H [H' _]]]]. injection H as <-. contradiction. }
  destruct nivel as [nivel|].
  2:{ left. split; [|eexists; reflexivity].
      intros [f [n [_ [_ [H _]]]]]. discriminate. }
  destruct (String.eqb_spec nivel EmptyString) as [Hnivel|Hnivel].
  { left. split; [|eexists; reflexivity].
    intros [f [n [_ [_ [H [H' _]]]]]]. injection H as <-. contradiction. }
  destruct (allowed_file (filename file)) eqn:Hext; cbn [negb].
  2:{ left. split; [|eexists; reflexivity].
      intros [f [n [H [_ [_ [_ [H' _]]]]]]]. injection H as <-. congruence. }
  destruct (Z.ltb_spec MAX_FILE_SIZE (file_size file)) as [Hsize|Hsize].
  { left. split; [|eexists; reflexivity].
    intros [f [n [H [_ [_ [_ [_ H']]]]]]]. injection H as <-. lia. }
  assert (exists f n,
             Some file = Some f /\ filename f <> EmptyString
             /\ Some nivel = Some n /\ n <> EmptyString
             /\ allowed_file (filename f) = true /\ file_size f <= MAX_FILE_SIZE) as Hvalid
    by (exists file, nivel; repeat split; assumption).
  right. unfold procesar. destruct (staging w) as [u|e] eqn:Hst.
  - destruct (String.eqb_spec (extracted w) EmptyString) as [Htext|Htext].
    + right. left. repeat split; try assumption; [now exists u|].
      exists file. now split.
    + right. right. repeat split; try assumption; [now exists u|].
      destruct (responder_reshapes file nivel (extracted w) (reply w))
        as [report [ok [message [resp [_ [Hr _]]]]]].
      exists file, nivel, resp. rewrite Hr. now repeat split.
  - left. split; [assumption|]. exists e. now split.
Qed.

End AnalizarFacts.

(** X13. The message of the orchestrator's empty-text branch never
    reaches a client: when the text the handler analyses is what
    [extraer_texto] returned, [error_info] is never Texto vacío, for any
    request, disk, key, parser and reply. *)
Theorem analizar_never_reports_texto_vacio :
  forall (str_key : string -> Z) (tie_up : Z -> Z -> bool)
         (json_loads : string -> result json) (api_key : string)
         (req : request) (stage : result unit) (d : disco) (temp_path : string)
         (r : gemini_reply),
    field "error_info"
      (body (fst (analizar str_key tie_up json_loads api_key req
                    {| staging := stage; extracted := extraer_texto d temp_path;
                       reply := r |})))
    <> Some (JStr "Texto vacío").
Proof.
  intros str_key tie_up json_loads api_key req stage d temp_path r.
  destruct (analizar_cases str_key tie_up json_loads api_key req
              {| staging := stage; extracted := extraer_texto d temp_path; reply := r |})
    as [[_ [m H]] | [[_ [e [_ H]]] | [[_ [_ [_ [file [_ H]]]]] |
        [_ [_ [Htext [file [nivel [resp [_ [_ [Hr H]]]]]]]]]]]];
    cbv zeta in H; rewrite H; cbn [fst]; try discriminate.
  cbn [extracted reply] in Hr, Htext.
  destruct (responder_reshapes str_key tie_up json_loads api_key file nivel
              (extraer_texto d temp_path) r)
    as [report [ok [message [resp' [Ho [Hr' [_ [_ [_ He]]]]]]]]].
  assert (resp' = resp) as -> by congruence. rewrite He.
  assert (PyStr.strip (extraer_texto d temp_path) <> EmptyString) as Hstrip.
  { unfold extraer_texto, leer_archivo in *.
    match goal with
    | |- context [bind ?c _] => destruct c as [texto|e]
    end; cbn [bind] in *; [now rewrite strip_idempotent | contradiction]. }
  destruct (orchestrator_outcomes str_key tie_up json_loads api_key
              (extraer_texto d temp_path) nivel r)
    as [[Hb _] | [_ [[m [Hm Hrun]] | [[e Hrun] | [[e Hrun] | [respuesta [rep [_ Hrun]]]]]]]];
    [contradiction | | | |]; cbv zeta in Hrun; rewrite Hrun in Ho; injection Ho as _ _ <-.
  - simpl in Hm. destruct Hm as [<-|[<-|[<-|[]]]]; discriminate.
  - destruct (diagnosticar_cases e) as [Hd|Hd].
    + simpl in Hd. repeat (destruct Hd as [<-|Hd]; [discriminate|]). contradiction.
    + rewrite Hd. discriminate.
  - discriminate.
  - discriminate.
Qed.

(** X14. The handler answers 200, 400 or 500, and 500 only when staging
    the upload raised: a valid request whose upload is staged is answered
    200 whatever the extracted text, the key, the parser and the model's
    reply are, so a failure of the model never becomes an HTTP error. *)
Theorem analizar_status_codes :
  forall (str_key : string -> Z) (tie_up : Z -> Z -> bool)
         (json_loads : string -> result json) (api_key : string)
         (req : request) (w : world),
    let resp := fst (analizar str_key tie_up json_loads api_key req w) in
    (status resp = 200 \/ status resp = 400 \/ status resp = 500)
    /\ (status resp = 400 <-> ~ valid_request req)
    /\ (status resp = 500 <-> valid_request req /\ exists e, staging w = Raise e)
    /\ (status resp = 200 <-> valid_request req /\ exists u, staging w = Ok u).
Proof.
  intros str_key tie_up json_loads api_key req w resp. subst resp.
  destruct (analizar_cases str_key tie_up json_loads api_key req w)
    as [[Hv [m H]] | [[Hv [e [Hs H]]] | [[Hv [[u Hs] [_ [file [_ H]]]]] |
        [Hv [[u Hs] [_ [file [nivel [resp [_ [_ [Hr H]]]]]]]]]]]];
    cbv zeta in H; rewrite H; cbn [fst status error_response].
  - split; [tauto|]. repeat split; try tauto; try discriminate;
      intros [Hv' _]; contradiction.
  - split; [tauto|]. repeat split; try tauto; try discriminate.
    + now exists e.
    + intros [_ [u Hu]]. congruence.
  - split; [tauto|]. repeat split; try tauto; try discriminate.
    + intros [_ [e He]]. congruence.
    + now exists u.
  - destruct (responder_reshapes str_key tie_up json_loads api_key file nivel
                (extracted w) (reply w))
      as [report [ok [message [resp' [_ [Hr' [Hst _]]]]]]].
    assert (resp' = resp) as -> by congruence. rewrite Hst.
    split; [tauto|]. repeat split; try tauto; try discriminate.
    + intros [_ [e He]]. congruence.
    + now exists u.
Qed.

(** X15. The orchestrator is run exactly for the valid requests whose
    upload was staged and whose extracted text is not empty; for every
    other request the model is not consulted. *)
Theorem analizar_runs_pipeline_iff :
  forall (str_key : string -> Z) (tie_up : Z -> Z -> bool)
         (json_loads : string -> result json) (api_key : string)
         (req : request) (w : world),
    In Analyzed (snd (analizar str_key tie_up json_loads api_key req w))
    <-> (valid_request req /\ (exists u, staging w = Ok u)
         /\ extracted w <> EmptyString).
Proof.
  intros str_key tie_up json_loads api_key req w.
  destruct (analizar_cases str_key tie_up json_loads api_key req w)
    as [[Hv [m H]] | [[Hv [e [Hs H]]] | [[Hv [[u Hs] [Ht [file [_ H]]]]] |
        [Hv [[u Hs] [Ht [file [nivel [resp [_ [_ [Hr H]]]]]]]]]]]];
    cbv zeta in H; rewrite H; cbn [snd In]; split.
  - intros [].
  - intros [Hv' _]. contradiction.
  - intros [C|[]]. discriminate.
  - intros [_ [[u Hu] _]]. congruence.
  - intros [C|[C|[]]]; discriminate.
  - intros [_ [_ Hne]]. contradiction.
  - intros _. repeat split; try assumption. now exists u.
  - intros _. tauto.
Qed.

Lemma valid_request_parts (file : upload) (nivel : string) :
  filename file <> EmptyString -> nivel <> EmptyString ->
  allowed_file (filename file) = true -> file_size file <= MAX_FILE_SIZE ->
  valid_request {| req_file := Some file; req_nivel := Some nivel |}.
Proof. intros. exists file, nivel. now repeat split. Qed.

(** X16. For a valid request whose upload is staged and whose extracted
    text is not empty, the answer is the orchestrator's report with two
    fields replaced: [filename] is the name of the upload and [error_info]
    the orchestrator's message.  The other ten fields, the capitalized label
    among them, are the report's. *)
Theorem analizar_reshapes_report :
  forall (str_key : string -> Z) (tie_up : Z -> Z -> bool)
         (json_loads : string -> result json) (api_key : string)
         (req : request) (w : world),
    valid_request req ->
    (exists u, staging w = Ok u) ->
    extracted w <> EmptyString ->
    exists file nivel report ok message,
      req_file req = Some file /\ req_nivel req = Some nivel
      /\ analizar_con_gemini str_key tie_up json_loads api_key
           (extracted w) nivel (reply w) = Ok (report, ok, message)
      /\ let answer := body (fst (analizar str_key tie_up json_loads api_key req w)) in
         (forall key, In key report_keys -> key <> "filename" -> key <> "error_info" ->
                      field key answer = field key report)
         /\ field "filename" answer = Some (JStr (filename file))
         /\ field "error_info" answer = Some (JStr message).
Proof.
  intros str_key tie_up json_loads api_key req w Hvalid [u Hstage] Htext.
  destruct (analizar_cases str_key tie_up json_loads api_key req w)
    as [[Hv _] | [[_ [e [Hs _]]] | [[_ [_ [Ht _]]] |
        [_ [_ [_ [file [nivel [resp [Hf [Hn [Hr H]]]]]]]]]]]];
    [contradiction | congruence | contradiction |].
  cbv zeta in H.
  destruct (responder_reshapes str_key tie_up json_loads api_key file nivel
              (extracted w) (reply w))
    as [report [ok [message [resp' [Ho [Hr' [_ [Hkeys [Hname Hinfo]]]]]]]]].
  assert (resp' = resp) as -> by congruence.
  exists file, nivel, report, ok, message.
  rewrite H. cbn [fst]. now repeat split.
Qed.

(** X16, witness: the scenario of the specification. *)
Lemma analizar_reshapes_report_witness :
  exists file nivel report ok message,
    req_file peticion_valida = Some file /\ req_nivel peticion_valida = Some nivel
    /\ analizar_con_gemini key0 tie0 loads_82 "clave"
         (extracted mundo_82) nivel (reply mundo_82) = Ok (report, ok, message)
    /\ let answer := body (fst (analizar key0 tie0 loads_82 "clave" peticion_valida mundo_82)) in
       (forall key, In key report_keys -> key <> "filename" -> key <> "error_info" ->
                    field key answer = field key report)
       /\ field "filename" answer = Some (JStr (filename file))
       /\ field "error_info" answer = Some (JStr message).
Proof.
  apply (analizar_reshapes_report key0 tie0 loads_82 "clave" peticion_valida mundo_82).
  - apply valid_request_parts; [discriminate | discriminate | reflexivity | discriminate].
  - now exists tt.
  - discriminate.
Defined.

(** X17. An answer of the pipeline that was not made with the model is
    never in the low tier: its percentage is an integer between 50 and 100
    and it is yellow/Medio or red/Alto. *)
Theorem analizar_without_model_is_medium_or_high :
  forall (str_key : string -> Z) (tie_up : Z -> Z -> bool)
         (json_loads : string -> result json) (api_key : string)
         (req : request) (w : world),
    valid_request req ->
    (exists u, staging w = Ok u) ->
    extracted w <> EmptyString ->
    let answer := body (fst (analizar str_key tie_up json_loads api_key req w)) in
    field "analizado_con_ia" answer = Some (JBool false) ->
    (exists p, field "porcentaje" answer = Some (JInt p) /\ 50 <= p <= 100)
    /\ ((field "color" answer = Some (JStr "yellow")
         /\ field "label" answer = Some (JStr "Medio"))
        \/ (field "color" answer = Some (JStr "red")
            /\ field "label" answer = Some (JStr "Alto"))).
Proof.
  intros str_key tie_up json_loads api_key req w Hvalid [u Hstage] Htext answer Hflag.
  subst answer.
  destruct (analizar_cases str_key tie_up json_loads api_key req w)
    as [[Hv _] | [[_ [e [Hs _]]] | [[_ [_ [Ht _]]] |
        [_ [_ [_ [file [nivel [resp [Hf [Hn [Hr H]]]]]]]]]]]];
    [contradiction | congruence | contradiction |].
  cbv zeta in H. rewrite H in *. cbn [fst] in *.
  destruct (responder_reshapes str_key tie_up json_loads api_key file nivel
              (extracted w) (reply w))
    as [report [ok [message [resp' [Ho [Hr' [_ [Hkeys _]]]]]]]].
  assert (resp' = resp) as -> by congruence.
  assert (forall key, In key ["porcentaje"; "color"; "label"; "analizado_con_ia"] ->
                      field key (body resp) = field key report) as Hsame.
  { intros key Hin. apply Hkeys.
    - unfold report_keys. simpl in *. tauto.
    - simpl in Hin. intros ->.
      repeat (destruct Hin as [Hin|Hin]; [discriminate|]). contradiction.
    - simpl in Hin. intros ->.
      repeat (destruct Hin as [Hin|Hin]; [discriminate|]). contradiction. }
  rewrite (Hsame "analizado_con_ia") in Hflag by (simpl; tauto).
  rewrite (Hsame "porcentaje"), (Hsame "color"), (Hsame "label") by (simpl; tauto).
  destruct (orchestrator_cases str_key tie_up json_loads api_key (extracted w) nivel (reply w))
    as [[m Hrun] | [respuesta [rep [He Hrun]]]]; rewrite Hrun in Ho; injection Ho as <- <- <-.
  - rewrite analisis_fallback_report.
    pose proof (raw_score_bounds (extracted w)) as Hb.
    cbn [field Py.lookup String.eqb Ascii.eqb Bool.eqb]. split.
    + exists (Z.min (raw_score (extracted w)) 100). split; [reflexivity | lia].
    + destruct (Z.ltb_spec (raw_score (extracted w)) 50) as [C|_]; [lia|].
      destruct (raw_score (extracted w) <? 75); [left | right]; now split.
  - apply expandir_ok in He. destruct He as [fields [color [label [_ [_ He]]]]].
    injection He as ->. cbn in Hflag. discriminate.
Qed.

(** X17, witness: the scenario without a usable key. *)
Lemma analizar_without_model_is_medium_or_high_witness :
  let answer :=
    body (fst (analizar key0 tie0 loads_82 "tu_api_key_aqui" peticion_valida mundo_82)) in
  (exists p, field "porcentaje" answer = Some (JInt p) /\ 50 <= p <= 100)
  /\ ((field "color" answer = Some (JStr "yellow")
       /\ field "label" answer = Some (JStr "Medio"))
      \/ (field "color" answer = Some (JStr "red")
          /\ field "label" answer = Some (JStr "Alto"))).
Proof.
  apply (analizar_without_model_is_medium_or_high key0 tie0 loads_82 "tu_api_key_aqui"
           peticion_valida mundo_82).
  - apply valid_request_parts; [discriminate | discriminate | reflexivity | discriminate].
  - now exists tt.
  - discriminate.
  - reflexivity.
Defined.

(** ** Cleaning, once more *)

Lemma count_char_nonneg (c : ascii) (s : string) : 0 <= PyStr.count_char c s.
Proof.
  induction s as [|a s IH]; cbn [PyStr.count_char]; [lia|].
  destruct (Ascii.eqb a c); lia.
Qed.

(** A fenced block whose body has no backtick is cleaned to its trimmed,
    unescaped body. *)
Lemma limpiar_fenced_body (body : string) :
  PyStr.count_char backtick body = 0 ->
  limpiar_respuesta_gemini (fence_json ++ body ++ fence) = unescape (PyStr.strip body).
Proof.
  intros Hbody. unfold limpiar_respuesta_gemini.
  change (PyStr.startswith fence_json (fence_json ++ body ++ fence)) with true.
  change ((fence_json ++ body ++ fence =? EmptyString)%string) with false.
  cbv iota. unfold unescape. do 3 f_equal.
  unfold PyStr.replace at 2.
  change (PyStr.replace_from fence_json EmptyString 0 (fence_json ++ body ++ fence))
    with (PyStr.replace_from fence_json EmptyString
            (String.length "``json") ("``json" ++ (body ++ fence))).
  rewrite replace_from_skip.
  unfold fence_json at 1. fold backtick.
  rewrite (replace_from_no_backtick _ _ _ _ Hbody).
  change (PyStr.replace_from (String backtick "``json") EmptyString 0 fence) with fence.
  unfold PyStr.replace, fence at 1. fold backtick.
  rewrite (replace_from_no_backtick _ _ _ _ Hbody).
  change (PyStr.replace_from (String backtick "``") EmptyString 0 fence) with EmptyString.
  apply append_empty_r.
Qed.

(** A bare answer without backticks is trimmed and unescaped. *)
Lemma limpiar_bare_body (body : string) :
  PyStr.count_char backtick body = 0 ->
  limpiar_respuesta_gemini body = unescape (PyStr.strip body).
Proof.
  intros Hbody. unfold limpiar_respuesta_gemini.
  destruct body as [|c body]; [reflexivity|].
  cbn [String.eqb]. cbn [PyStr.count_char] in Hbody.
  pose proof (count_char_nonneg backtick body).
  destruct (Ascii.eqb c backtick) eqn:E; [lia|].
  unfold fence_json. fold backtick. cbn [PyStr.startswith].
  rewrite Ascii.eqb_sym, E. reflexivity.
Qed.

Lemma strip_nonspace_head (c : ascii) (r : string) :
  PyStr.is_space c = false -> PyStr.strip (String c r) <> EmptyString.
Proof.
  intros Hc. unfold PyStr.strip. cbn [PyStr.lstrip]. rewrite Hc.
  destruct (rstrip_keeps_head c r Hc) as [r' ->]. discriminate.
Qed.

(** X18. The code fence is transparent: for a body without backticks that
    is not blank, the orchestrator returns the same result whether the
    model wrapped the body in a JSON code block or sent it bare. *)
Theorem analizar_con_gemini_fence_is_transparent :
  forall (str_key : string -> Z) (tie_up : Z -> Z -> bool)
         (json_loads : string -> result json) (api_key texto nivel_educativo : string)
         (body : string),
    PyStr.count_char backtick body = 0 ->
    PyStr.strip body <> EmptyString ->
    analizar_con_gemini str_key tie_up json_loads api_key texto nivel_educativo
      (ReplyText (Some (fence_json ++ body ++ fence)%string))
    = analizar_con_gemini str_key tie_up json_loads api_key texto nivel_educativo
        (ReplyText (Some body)).
Proof.
  intros str_key tie_up json_loads api_key texto nivel body Hbody Hblank.
  unfold analizar_con_gemini.
  destruct (String.eqb (PyStr.strip texto) EmptyString); [reflexivity|].
  destruct (String.eqb api_key EmptyString || String.eqb api_key "tu_api_key_aqui");
    [reflexivity|].
  assert (body <> EmptyString) as Hne by (intros ->; now apply Hblank).
  apply String.eqb_neq in Hne, Hblank. rewrite Hne, Hblank. cbn [orb].
  assert (PyStr.strip (fence_json ++ body ++ fence) <> EmptyString) as Hf
    by (apply strip_nonspace_head; reflexivity).
  apply String.eqb_neq in Hf. rewrite Hf.
  change ((fence_json ++ body ++ fence =? EmptyString)%string) with false. cbn [orb].
  now rewrite limpiar_fenced_body, limpiar_bare_body.
Qed.

(** X18, witness: the answer of the scenario, fenced and bare. *)
Lemma analizar_con_gemini_fence_is_transparent_witness :
  analizar_con_gemini key0 tie0 loads_82 "clave" texto_prueba "basica-1-4"
    (ReplyText (Some (fence_json ++ respuesta_82 ++ fence)%string))
  = analizar_con_gemini key0 tie0 loads_82 "clave" texto_prueba "basica-1-4"
      (ReplyText (Some respuesta_82)).
Proof.
  apply (analizar_con_gemini_fence_is_transparent key0 tie0 loads_82 "clave"
           texto_prueba "basica-1-4" respuesta_82).
  - reflexivity.
  - discriminate.
Defined.

(** [s] starts with the fence exactly when it starts with three backticks
    or more. *)
Lemma startswith_fence_leading (s : string) :
  PyStr.startswith fence s = Nat.leb 3 (leading_backticks s).
Proof.
  unfold fence. fold backtick.
  destruct s as [|a [|b [|c r]]]; cbn [PyStr.startswith leading_backticks];
    repeat rewrite (Ascii.eqb_sym backtick);
    repeat match goal with
           | |- context [Ascii.eqb ?x backtick] => destruct (Ascii.eqb x backtick)
           end; reflexivity.
Qed.

Lemma contains_cons (sub : string) (c : ascii) (s : string) :
  PyStr.contains sub (String c s)
  = PyStr.startswith sub (String c s) || PyStr.contains sub s.
Proof. reflexivity. Qed.

(** After [replace(fence, empty)] no fence is left, and a string that
    began with fewer than three backticks still begins with as many. *)
Lemma replace_fence_clean (s : string) :
  forall k,
    PyStr.contains fence (PyStr.replace_from fence EmptyString k s) = false
    /\ ((leading_backticks s <= 2)%nat ->
        leading_backticks (PyStr.replace_from fence EmptyString 0 s)
        = leading_backticks s).
Proof.
  induction s as [|c s IH]; intros k.
  - split; reflexivity.
  - assert ((leading_backticks (String c s) <= 2)%nat ->
            leading_backticks (PyStr.replace_from fence EmptyString 0 (String c s))
            = leading_backticks (String c s)
            /\ PyStr.contains fence (PyStr.replace_from fence EmptyString 0 (String c s))
               = false) as Hsmall.
    { intros Hle. cbn [PyStr.replace_from].
      rewrite startswith_fence_leading.
      destruct (Nat.leb_spec 3 (leading_backticks (String c s))) as [C|_]; [lia|].
      destruct (IH 0%nat) as [Hc Hl].
      cbn [leading_backticks] in *.
      destruct (Ascii.eqb c backtick) eqn:E.
      - rewrite Hl by lia. split; [reflexivity|].
        rewrite contains_cons, Hc, startswith_fence_leading.
        cbn [leading_backticks]. rewrite E, Hl by lia.
        destruct (Nat.leb_spec 3 (S (leading_backticks s))); [lia | reflexivity].
      - split; [reflexivity|].
        rewrite contains_cons, Hc, startswith_fence_leading.
        cbn [leading_backticks]. rewrite E. reflexivity. }
    split; [|intros Hle; now apply Hsmall].
    destruct k as [|k]; [|cbn [PyStr.replace_from]; apply IH].
    destruct (Nat.le_gt_cases (leading_backticks (String c s)) 2) as [Hle|Hgt];
      [now apply Hsmall|].
    cbn [PyStr.replace_from]. rewrite startswith_fence_leading.
    destruct (Nat.leb_spec 3 (leading_backticks (String c s))) as [_|C]; [|lia].
    cbn [append String.length fence Nat.sub]. apply IH.
Qed.

Lemma contains_lstrip (sub s : string) :
  PyStr.contains sub (PyStr.lstrip s) = true -> PyStr.contains sub s = true.
Proof.
  induction s as [|c s IH]; [trivial|].
  cbn [PyStr.lstrip]. destruct (PyStr.is_space c); [|trivial].
  intros H. rewrite contains_cons, (IH H). apply orb_true_r.
Qed.

Lemma rstrip_is_prefix (s : string) : exists w, s = (PyStr.rstrip s ++ w)%string.
Proof.
  induction s as [|c s [w IH]]; [now exists EmptyString|].
  cbn [PyStr.rstrip]. destruct (PyStr.rstrip s) as [|a r].
  - destruct (PyStr.is_space c).
    + now exists (String c s).
    + exists s. reflexivity.
  - exists w. change (String c s = String c (String a r ++ w)%string). now f_equal.
Qed.

Lemma startswith_app (p x w : string) :
  PyStr.startswith p x = true -> PyStr.startswith p (x ++ w) = true.
Proof.
  revert x. induction p as [|a p IH]; intros x H; [reflexivity|].
  destruct x as [|b x]; [discriminate|].
  cbn [PyStr.startswith append] in *. apply andb_true_iff in H. destruct H as [-> H].
  now apply IH.
Qed.

Lemma contains_app (sub x w : string) :
  PyStr.contains sub x = true -> PyStr.contains sub (x ++ w) = true.
Proof.
  induction x as [|c x IH]; intros H.
  - cbn [PyStr.contains] in H. rewrite orb_false_r in H.
    destruct sub; [|discriminate]. destruct w; reflexivity.
  - rewrite contains_cons in H. cbn [append]. rewrite contains_cons.
    apply orb_true_iff in H. destruct H as [H|H].
    + change (String c (x ++ w)) with (String c x ++ w)%string.
      now rewrite (startswith_app _ _ _ H).
    + rewrite (IH H). apply orb_true_r.
Qed.

Lemma contains_strip (sub s : string) :
  PyStr.contains sub s = false -> PyStr.contains sub (PyStr.strip s) = false.
Proof.
  intros H. unfold PyStr.strip.
  destruct (PyStr.contains sub (PyStr.rstrip (PyStr.lstrip s))) eqn:E; [|reflexivity].
  destruct (rstrip_is_prefix (PyStr.lstrip s)) as [w Hw].
  apply (contains_app _ _ w) in E. rewrite <- Hw in E.
  apply contains_lstrip in E. congruence.
Qed.

(** Replacing a needle that does not start with a backtick by one character
    that is not a backtick makes no fence. *)
Lemma replace_makes_no_fence (o n : ascii) (old' : string) (s : string) :
  Ascii.eqb o backtick = false -> Ascii.eqb n backtick = false ->
  forall k,
    leading_backticks (PyStr.replace_from (String o old') (String n EmptyString) 0 s)
    = leading_backticks s
    /\ (PyStr.contains fence s = false ->
        PyStr.contains fence
          (PyStr.replace_from (String o old') (String n EmptyString) k s) = false).
Proof.
  intros Ho Hn. induction s as [|c s IH]; intros k; [split; reflexivity|].
  destruct (IH 0%nat) as [Hl Hc0].
  assert (leading_backticks
            (PyStr.replace_from (String o old') (String n EmptyString) 0 (String c s))
          = leading_backticks (String c s)) as Hlead.
  { cbn [PyStr.replace_from PyStr.startswith].
    destruct (Ascii.eqb_spec o c) as [<-|Hoc]; cbn [andb].
    - destruct (PyStr.startswith old' s); cbn [append leading_backticks].
      + now rewrite Hn, Ho.
      + now rewrite Ho.
    - cbn [leading_backticks]. now rewrite Hl. }
  split; [exact Hlead|].
  intros Hc. rewrite contains_cons in Hc. apply orb_false_elim in Hc.
  destruct Hc as [Hsw Hcs].
  destruct k as [|k]; [|cbn [PyStr.replace_from]; now apply IH].
  revert Hlead. cbn [PyStr.replace_from].
  destruct (PyStr.startswith (String o old') (String c s)); intros Hlead.
  - cbn [append]. rewrite contains_cons.
    rewrite startswith_fence_leading. cbn [leading_backticks]. rewrite Hn.
    cbn [Nat.leb orb]. now apply IH.
  - rewrite contains_cons, (Hc0 Hcs), startswith_fence_leading, Hlead,
      <- startswith_fence_leading, Hsw. reflexivity.
Qed.

(** X19. The cleaned text of a reply that starts with the JSON fence holds
    no triple backtick at all. *)
Theorem limpiar_leaves_no_fence :
  forall s : string,
    PyStr.startswith fence_json s = true ->
    PyStr.contains fence (limpiar_respuesta_gemini s) = false.
Proof.
  intros s Hs. unfold limpiar_respuesta_gemini. rewrite Hs.
  destruct (String.eqb_spec s EmptyString) as [->|_]; [discriminate|].
  unfold backslash_t, backslash_n, TAB, LF, PyStr.replace.
  apply (replace_makes_no_fence "\"%char "009"%char "t"); [reflexivity | reflexivity|].
  apply (replace_makes_no_fence "\"%char "010"%char "n"); [reflexivity | reflexivity|].
  apply contains_strip. apply replace_fence_clean.
Qed.

(** X19, witness: the fenced answer with a fence inside its body. *)
Lemma limpiar_leaves_no_fence_witness :
  PyStr.contains fence (limpiar_respuesta_gemini respuesta_fence_interior) = false.
Proof.
  apply (limpiar_leaves_no_fence respuesta_fence_interior). reflexivity.
Defined.

(** ** The prompt *)

Lemma substring_prefix_length (m : nat) (s : string) :
  String.length (String.substring 0 m s) = Nat.min (String.length s) m.
Proof.
  revert s. induction m as [|m IH]; intros s.
  - destruct s; cbn [String.substring String.length]; lia.
  - destruct s as [|c s]; cbn [String.substring String.length]; [reflexivity|].
    rewrite IH. lia.
Qed.

(** X20. The prompt holds at most the first 1500 characters of the text:
    its length is the length of the prompt of the empty text plus the
    smaller of the text's length and 1500, and two texts with the same
    first 1500 characters give the same prompt. *)
Theorem prompt_embeds_first_1500_characters :
  forall texto nivel_educativo : string,
    String.length (prompt texto nivel_educativo)
    = (String.length (prompt EmptyString nivel_educativo)
       + Nat.min (String.length texto) 1500)%nat
    /\ forall texto' : string,
         String.substring 0 1500 texto' = String.substring 0 1500 texto ->
         prompt texto' nivel_educativo = prompt texto nivel_educativo.
Proof.
  intros texto nivel. split.
  - unfold prompt. cbn [String.concat].
    repeat rewrite length_app.
    rewrite substring_prefix_length.
    change (String.length (String.substring 0 1500 EmptyString)) with 0%nat.
    lia.
  - intros texto' H. unfold prompt. now rewrite H.
Qed.

(** ** The scorer's tier *)

(** X21. The scorer rates a text High exactly when at least two of its
    four signals fire (short text, few periods, limited vocabulary, high
    repetition), and Medium when at most one does. *)
Theorem analisis_fallback_high_iff_two_signals :
  forall (str_key : string -> Z) (tie_up : Z -> Z -> bool) (texto nivel_educativo : string),
    let report := analisis_fallback str_key tie_up texto nivel_educativo in
    let signals :=
      List.length (filter (fun b : bool => b)
                     [ short_text texto; few_periods texto;
                       limited_vocabulary texto; high_repetition texto ]) in
    (field "label" report = Some (JStr "Alto") <-> (2 <= signals)%nat)
    /\ (field "label" report = Some (JStr "Medio") <-> (signals <= 1)%nat).
Proof.
  intros str_key tie_up texto nivel report signals. subst report signals.
  rewrite analisis_fallback_report. unfold raw_score, penalty.
  cbn [field Py.lookup String.eqb Ascii.eqb Bool.eqb].
  destruct (short_text texto), (few_periods texto), (limited_vocabulary texto),
    (high_repetition texto); cbn; repeat split; intros; try lia; try discriminate;
    reflexivity.
Qed.
